(** * Script.cpp of CLEO-iOS: the script unit and its handler resolver

    A shallow embedding of [src/scripts/Script.cpp].  Pointers and machine
    integers are [Z] with the wrap-around written out; memory is a finite
    map from byte addresses to bytes; calls whose behaviour the language
    leaves undefined (a load from unmapped memory, [delete[]] of a block
    that is not live, a stdio call on a null stream) end the computation
    with [Undefined].  The target is 64-bit little-endian (arm64), so a
    pointer takes 8 bytes. *)

From Stdlib Require Import ZArith Lia List.
From Stdlib Require Import String DecimalString.
From stdpp Require Import gmap strings list fin_maps.

Local Open Scope Z_scope.

(** ** Machine words *)

Module Word.

Definition to_u8 (z : Z) : Z := z mod 2 ^ 8.
Definition to_u64 (z : Z) : Z := z mod 2 ^ 64.

(** Reinterpretation of a 64-bit pattern as [long long]. *)
Definition to_s64 (z : Z) : Z :=
  let u := to_u64 z in
  if u <? 2 ^ 63 then u else u - 2 ^ 64.

(** [>>] on a [long long]: the sign is kept. *)
Definition sar (z : Z) (n : Z) : Z := Z.shiftr z n.

End Word.

(** ** The offset hash of [Script::FindHandler] *)

(** [(uint64((opcode & 0x7fffu) * 1374389535llu) >> 33) & 0x3ffffff0]:
    the product is taken in [unsigned long long], hence modulo 2^64. *)
Definition handlerOffset (opcode : Z) : Z :=
  Z.land
    (Z.shiftr (Word.to_u64 (Z.land opcode 0x7fff * 1374389535)) 33)
    0x3ffffff0.

(** First opcode that is not tabulated (the test [opcode >= 0xa8c]). *)
Definition defaultCutoff : Z := 0xa8c.


(** ** Undefined behaviour as an explicit outcome *)

Inductive Fault : Type :=
  | BadLoad (addr : Z)     (* a load from an address that is not mapped *)
  | BadFree (p : Z)        (* [delete[]] of a non-null pointer that is not live *)
  | NullStream             (* a stdio call on a null [FILE *] *)
  | NameOverrun.           (* [strcpy] past the end of the name member *)

Inductive Result (A : Type) : Type :=
  | Ok (a : A)
  | Undefined (f : Fault).

Arguments Ok {A} a.
Arguments Undefined {A} f.

#[global] Instance Result_ret : MRet Result := fun A a => Ok a.
#[global] Instance Result_bind : MBind Result := fun A B k m =>
  match m with
  | Ok a => k a
  | Undefined f => Undefined f
  end.

(** ** Memory and the free store *)

(** Byte-addressed memory; an absent address is unmapped or holds an
    indeterminate value. *)
Abbreviation Memory := (gmap Z Z).

Definition load8 (m : Memory) (a : Z) : Result Z :=
  match m !! a with
  | Some b => Ok b
  | None => Undefined (BadLoad a)
  end.

(** Little-endian load of [n] bytes starting at [a]. *)
Fixpoint load_le (n : nat) (m : Memory) (a : Z) : Result Z :=
  match n with
  | O => Ok 0
  | S n' =>
      b ← load8 m a;
      hi ← load_le n' m (a + 1);
      Ok (b + 256 * hi)
  end.

Definition load16 : Memory -> Z -> Result Z := load_le 2.
Definition load64 : Memory -> Z -> Result Z := load_le 8.

(** Bytes [bs] stored from address [a] on. *)
Fixpoint store_bytes (a : Z) (bs : list Z) (m : Memory) : Memory :=
  match bs with
  | [] => m
  | b :: bs' => <[a := b]> (store_bytes (a + 1) bs' m)
  end.

Record Heap : Type := mkHeap {
  mem : Memory;
  live : gmap Z Z;        (* blocks from [new[]] not yet deleted: base, length *)
  released : list Z;      (* blocks handed back by [delete[]], oldest first *)
  brk : Z                 (* where the next [new[]] block is placed *)
}.

(** [new uint8[size]]: a fresh block whose bytes are indeterminate. *)
Definition new_array (size : Z) (hp : Heap) : Z * Heap :=
  (brk hp,
   {| mem := mem hp;
      live := <[brk hp := size]> (live hp);
      released := released hp;
      brk := brk hp + Z.max size 1 |}).

(** [delete[] p]: nothing for a null pointer, release of a live block,
    undefined for anything else. *)
Definition delete_array (p : Z) (hp : Heap) : Result Heap :=
  if p =? 0 then Ok hp
  else
    match live hp !! p with
    | Some len =>
        Ok {| mem := filter (fun kv => ~ (p <= kv.1 < p + len)) (mem hp);
              live := delete p (live hp);
              released := released hp ++ [p];
              brk := brk hp |}
    | None => Undefined (BadFree p)
    end.

(** ** The script unit *)

(** The members of [Script] that Script.cpp names (Script.h declares
    them).  Pointers are addresses, 0 being [nullptr]. *)
Record Script : Type := mkScript {
  nextScript : Z;
  name : string;
  startPointer : Z;
  currentPointer : Z;
  activationTime : Z;
  active : bool;
  invertReturn : bool
}.

(** The object representation with every byte zero. *)
Definition Script_zero : Script :=
  {| nextScript := 0; name := ""; startPointer := 0; currentPointer := 0;
     activationTime := 0; active := false; invertReturn := false |}.

Definition set_name (v : string) (u : Script) : Script :=
  {| nextScript := nextScript u; name := v; startPointer := startPointer u;
     currentPointer := currentPointer u; activationTime := activationTime u;
     active := active u; invertReturn := invertReturn u |}.

Definition set_startPointer (v : Z) (u : Script) : Script :=
  {| nextScript := nextScript u; name := name u; startPointer := v;
     currentPointer := currentPointer u; activationTime := activationTime u;
     active := active u; invertReturn := invertReturn u |}.

Definition set_currentPointer (v : Z) (u : Script) : Script :=
  {| nextScript := nextScript u; name := name u; startPointer := startPointer u;
     currentPointer := v; activationTime := activationTime u;
     active := active u; invertReturn := invertReturn u |}.

Definition set_activationTime (v : Z) (u : Script) : Script :=
  {| nextScript := nextScript u; name := name u; startPointer := startPointer u;
     currentPointer := currentPointer u; activationTime := v;
     active := active u; invertReturn := invertReturn u |}.

Definition set_active (v : bool) (u : Script) : Script :=
  {| nextScript := nextScript u; name := name u; startPointer := startPointer u;
     currentPointer := currentPointer u; activationTime := activationTime u;
     active := v; invertReturn := invertReturn u |}.

Definition set_invertReturn (v : bool) (u : Script) : Script :=
  {| nextScript := nextScript u; name := name u; startPointer := startPointer u;
     currentPointer := currentPointer u; activationTime := activationTime u;
     active := active u; invertReturn := v |}.

(** What a handler may read and write: the unit and the store around it. *)
Record State : Type := mkState {
  unit_ : Script;
  heap : Heap
}.

Definition with_unit (f : Script -> Script) (s : State) : State :=
  {| unit_ := f (unit_ s); heap := heap s |}.

(** ** The host *)

(** A native interceptor, [Mobile::Handler]: called with the unit's address. *)
Definition Interceptor : Type := Z -> State -> State.

Record Host : Type := mkHost {
  (** [Memory::Slid]: a link-time address to the live one. *)
  Slid : Z -> Z;
  (** [Memory::Addresses::defaultOpcodeHandler] and [::opcodeHandlerTable]. *)
  defaultOpcodeHandler : Z;
  opcodeHandlerTable : Z;
  (** [offsetof(Script, nextScript)], fixed by Script.h. *)
  offsetof_nextScript : Z;
  (** The override registry behind [Mobile::GetHandler]. *)
  overrides : gmap Z Interceptor;
  (** The host routine at a handler address, applied to the context
      pointer and the opcode: its result and its effect. *)
  call : Z -> Z -> Z -> State -> Z * State
}.

Module Mobile.

(** Modelled from the spec: [Mobile::GetHandler] (Mobile.h) is the lookup
    of the override layer, a mapping from opcode to native interceptor;
    a null result means that none is registered. *)
Definition GetHandler (h : Host) (opcode : Z) : option Interceptor :=
  overrides h !! opcode.

End Mobile.

(** The calls [RunNextInstruction] makes, in order. *)
Inductive Event : Type :=
  | GetHandlerCall (opcode : Z)          (* [Mobile::GetHandler(opcode)] *)
  | NativeCall (opcode ctx : Z)          (* [customHandler(this)] *)
  | FindHandlerCall (opcode : Z)         (* [FindHandler(opcode, scriptToPass)] *)
  | HostCall (handler ctx opcode : Z).   (* [handler(scriptToPass, opcode)] *)

(** ** Handler resolution *)

(** [Script::GetAlternateThis]: the arithmetic is done in [long long]. *)
Definition GetAlternateThis (h : Host) (m : Memory) (this : Z)
    (handlerOffset : Z) : Result Z :=
  let handlerTable := Slid h (opcodeHandlerTable h) in
  v ← load64 m (Word.to_u64 (handlerTable + handlerOffset + 8));
  Ok (Word.to_u64 (Word.to_s64 (this + offsetof_nextScript h)
                   + Word.sar (Word.to_s64 v) 1)).

(** [Script::FindHandler]: the handler and the new value of [thisPtr]. *)
Definition FindHandler (h : Host) (m : Memory) (opcode : Z) (thisPtr : Z)
    : Result (Z * Z) :=
  let defaultHandler := Slid h (defaultOpcodeHandler h) in
  if defaultCutoff <=? opcode then Ok (defaultHandler, thisPtr)
  else
    let handlerTable := Slid h (opcodeHandlerTable h) in
    let off := handlerOffset opcode in
    thisPtr' ← GetAlternateThis h m thisPtr off;
    handler ← load64 m (handlerTable + 8 * (off / 8));
    Ok (handler, thisPtr').

(** ** Stepping *)

(** The unit after the mask has been read: cursor moved, flag set. *)
Definition fetched (opcodeMask : Z) (s : State) : State :=
  with_unit (fun u =>
    set_invertReturn (negb (Z.land opcodeMask 0x8000 =? 0))
      (set_currentPointer (currentPointer u + 2) u)) s.

(** What happens to [opcode] once it has been split from the mask. *)
Definition dispatch (h : Host) (this : Z) (opcode : Z) (s : State)
    : Result (Z * State * list Event) :=
  match Mobile.GetHandler h opcode with
  | Some customHandler =>
      Ok (0, customHandler this s,
          [GetHandlerCall opcode; NativeCall opcode this])
  | None =>
      if opcode =? 0x4e then
        Ok (1, with_unit (set_active false) s, [GetHandlerCall opcode])
      else
        '(handler, scriptToPass) ← FindHandler h (mem (heap s)) opcode this;
        let '(r, s') := call h handler scriptToPass opcode s in
        Ok (Word.to_u8 r, s',
            [GetHandlerCall opcode; FindHandlerCall opcode;
             HostCall handler scriptToPass opcode])
  end.

(** [Script::RunNextInstruction] on the unit at address [this]. *)
Definition RunNextInstruction (h : Host) (this : Z) (s : State)
    : Result (Z * State * list Event) :=
  if negb (active (unit_ s)) then Ok (1, s, [])
  else
    opcodeMask ← load16 (mem (heap s)) (currentPointer (unit_ s));
    dispatch h this (Z.land opcodeMask 0x7fff) (fetched opcodeMask s).

(** ** Release, destruction and move *)

(** [Script::Unload]: [delete[] startPointer; startPointer = nullptr]. *)
Definition Unload (s : State) : Result State :=
  hp ← delete_array (startPointer (unit_ s)) (heap s);
  Ok {| unit_ := set_startPointer 0 (unit_ s); heap := hp |}.

(** [Script::~Script]: [Unload()], after which the object is gone. *)
Definition Script_dtor (s : State) : Result Heap :=
  s' ← Unload s;
  Ok (heap s').

(** [Script::Script(Script &&)]: the new object after the [memcpy], and
    the source after [fill_n] has zeroed its bytes. *)
Definition Script_move (script : Script) : Script * Script :=
  let this := script in
  (this, Script_zero).

(** ** Construction from a file *)

Inductive LogLine : Type :=
  | Log (msg : string)
  | LogError (msg : string).

Record FileSystem : Type := mkFileSystem {
  (** [stat]: the size of the file, when the call succeeds. *)
  st_size : string -> option Z;
  (** [fopen(path, "rb")]: the bytes of the file, when it opens. *)
  contents : string -> option (list Z);
  (** What [fread] and [fclose] do with a null stream.  ISO C leaves it
      undefined; a library may also return without doing anything. *)
  null_stream : Result ()
}.

Record Process : Type := mkProcess {
  pheap : Heap;
  log : list LogLine;
  loadNumber : Z          (* the function-local [static unsigned] *)
}.

Definition add_log (l : LogLine) (p : Process) : Process :=
  {| pheap := pheap p; log := log p ++ [l]; loadNumber := loadNumber p |}.

Definition with_pheap (hp : Heap) (p : Process) : Process :=
  {| pheap := hp; log := log p; loadNumber := loadNumber p |}.

(** [std::to_string] of an unsigned value. *)
Definition to_string (n : Z) : string :=
  NilZero.string_of_uint (N.to_uint (Z.to_N n)).

(** [std::fread(data, 1, size, stream)]: the bytes that arrive are copied
    to [data]; the count is not looked at by the caller. *)
Definition fread (fs : FileSystem) (data size : Z)
    (stream : option (list Z)) (hp : Heap) : Result Heap :=
  match stream with
  | Some bytes =>
      Ok {| mem := store_bytes data (take (Z.to_nat size) bytes) (mem hp);
            live := live hp; released := released hp; brk := brk hp |}
  | None => _ ← null_stream fs; Ok hp
  end.

(** [std::fclose(stream)]. *)
Definition fclose (fs : FileSystem) (stream : option (list Z)) : Result () :=
  match stream with
  | Some _ => Ok ()
  | None => null_stream fs
  end.

(** [Script::Script(const std::string &)].  [init] holds the members as
    they are when the body starts.  The process state is returned also
    when the body runs into undefined behaviour.  The name is taken to
    fit the name member; [Script_ctor_within] adds the bound. *)
Definition Script_ctor (fs : FileSystem) (path : string) (init : Script)
    (p : Process) : Process * Result Script :=
  let size := default 0 (st_size fs path) in
  let p := add_log (Log ("Loading " +:+ path)) p in
  let scriptFile := contents fs path in
  let p :=
    match scriptFile with
    | Some _ => p
    | None =>
        add_log (LogError ("Failed to load script " +:+ path
                           +:+ " (unable to open file)")) p
    end in
  let this := set_activationTime 0 init in
  let '(data, hp) := new_array size (pheap p) in
  let p := with_pheap hp p in
  match fread fs data size scriptFile (pheap p) with
  | Undefined f => (p, Undefined f)
  | Ok hp =>
      let p := with_pheap hp p in
      let this := set_startPointer data (set_currentPointer data this) in
      match fclose fs scriptFile with
      | Undefined f => (p, Undefined f)
      | Ok _ =>
          let tempName := "magic" +:+ to_string (loadNumber p) in
          let p := {| pheap := pheap p; log := log p;
                      loadNumber := (loadNumber p + 1) mod 2 ^ 32 |} in
          (p, Ok (set_name tempName this))
      end
  end.

(** ** Running a block *)

(** [Script::RunNextBlock]: [while (!RunNextInstruction()) {}].  The loop
    has no bound of its own; [fuel] caps the number of steps, and [None]
    says that the cap was reached with every step so far returning 0.
    The calls of the steps are collected in order. *)
Fixpoint RunNextBlock (fuel : nat) (h : Host) (this : Z) (s : State)
    : Result (option (State * list Event)) :=
  match fuel with
  | O => Ok None
  | S fuel' =>
      '(r, s', ev) ← RunNextInstruction h this s;
      if r =? 0 then
        rest ← RunNextBlock fuel' h this s';
        Ok (match rest with
            | Some (s'', ev') => Some (s'', ev ++ ev')
            | None => None
            end)
      else Ok (Some (s', ev))
  end.

(** ** The handlers of the table *)



(** ** Hosts that differ in their routines only *)

Definition with_call (c : Z -> Z -> Z -> State -> Z * State) (h : Host)
    : Host :=
  {| Slid := Slid h;
     defaultOpcodeHandler := defaultOpcodeHandler h;
     opcodeHandlerTable := opcodeHandlerTable h;
     offsetof_nextScript := offsetof_nextScript h;
     overrides := overrides h;
     call := c |}.

(** ** The bound of the name member *)

(** [std::strcpy(name, tempName.c_str())] writes the characters of the
    name and a terminating zero.  The name member has [capacity] bytes
    (Script.h fixes the number); a name of [capacity] characters or more
    is written past its end, which is undefined.  [Script_ctor] is the
    constructor for names that fit; this is the constructor with the
    bound. The counter has been advanced when [strcpy] runs. *)
Definition Script_ctor_within (capacity : Z) (fs : FileSystem)
    (path : string) (init : Script) (p : Process) : Process * Result Script :=
  match Script_ctor fs path init p with
  | (p', Ok this) =>
      if Z.of_nat (String.length (name this)) <? capacity
      then (p', Ok this)
      else (p', Undefined NameOverrun)
  | (p', Undefined f) => (p', Undefined f)
  end.

(** ** Proof automation *)

Ltac unfold_bind := unfold mbind, Result_bind, mret, Result_ret in *.

(** ** Sample hosts and units *)

Module Sample.

(** A host whose image is slid by 0x4000, so that the table lies at
    0x4200; its routines end the block and leave the state alone. *)
Definition host : Host :=
  {| Slid := fun a => a + 0x4000;
     defaultOpcodeHandler := 0x100;
     opcodeHandlerTable := 0x200;
     offsetof_nextScript := 0;
     overrides := ∅;
     call := fun _ _ _ s => (1, s) |}.

(** The same host with a native interceptor for 0x4e that does nothing. *)
Definition host_4e : Host :=
  {| Slid := Slid host;
     defaultOpcodeHandler := defaultOpcodeHandler host;
     opcodeHandlerTable := opcodeHandlerTable host;
     offsetof_nextScript := offsetof_nextScript host;
     overrides := {[ 0x4e := fun (_ : Z) (s : State) => s ]};
     call := call host |}.

(** The table record of opcodes 200..299, at offset 32: the routine at
    0x7000 and the adjustment -2. *)
Definition table_mem : Memory :=
  store_bytes 0x4220
    [0x00; 0x70; 0; 0; 0; 0; 0; 0;
     0xfe; 0xff; 0xff; 0xff; 0xff; 0xff; 0xff; 0xff] ∅.

(** A loaded unit at address 500 whose buffer of six bytes sits at 1000. *)
Definition this : Z := 500.

Definition unit_at (cursor : Z) : Script :=
  {| nextScript := 0; name := "magic0"; startPointer := 1000;
     currentPointer := cursor; activationTime := 0;
     active := true; invertReturn := false |}.

Definition heap_of (bytes : list Z) : Heap :=
  {| mem := store_bytes 1000 bytes ∅;
     live := {[ 1000 := 6 ]};
     released := [];
     brk := 4096 |}.

(** The buffer [0x4e, 0x00] and four bytes of padding. *)
Definition terminating : State :=
  {| unit_ := unit_at 1000; heap := heap_of [0x4e; 0; 0; 0; 0; 0] |}.

(** The mask 0x8012 followed by padding; the cursor is left in the middle
    of the buffer by [moved]. *)
Definition inverted : State :=
  {| unit_ := unit_at 1000; heap := heap_of [0x12; 0x80; 0; 0; 0; 0] |}.

Definition moved : State :=
  {| unit_ := unit_at 1004; heap := heap_of [0x12; 0x80; 0; 0; 0; 0] |}.

(** Units whose first instruction is opcode 250, resolved through the
    table, and opcode 0xa8c, left to the default handler. *)
Definition tabulated : State :=
  {| unit_ := unit_at 1000;
     heap := {| mem := store_bytes 1000 [0xfa; 0; 0; 0; 0; 0] table_mem;
                live := {[ 1000 := 6 ]};
                released := [];
                brk := 4096 |} |}.

Definition untabulated : State :=
  {| unit_ := unit_at 1000; heap := heap_of [0x8c; 0x0a; 0; 0; 0; 0] |}.

(** A file system without the file asked for, on a C library for which a
    null stream is undefined ([strict]) or ignored ([lenient]). *)
Definition strict : FileSystem :=
  {| st_size := fun _ => None; contents := fun _ => None;
     null_stream := Undefined NullStream |}.

Definition lenient : FileSystem :=
  {| st_size := fun _ => None; contents := fun _ => None;
     null_stream := Ok () |}.

(** The members before the constructor body runs. *)
Definition blank : Script :=
  {| nextScript := 0; name := ""; startPointer := 0; currentPointer := 0;
     activationTime := 7; active := true; invertReturn := false |}.

Definition process : Process :=
  {| pheap := {| mem := ∅; live := ∅; released := []; brk := 4096 |};
     log := [];
     loadNumber := 0 |}.

End Sample.

(** ** Further sample data *)

Module Scenario.

(** An interceptor that steps the cursor back over the mask it was
    called for and clears invertReturn. *)
Definition rewind : Interceptor :=
  fun (_ : Z) (s : State) =>
    with_unit (fun u =>
      set_invertReturn false
        (set_currentPointer (currentPointer u - 2) u)) s.

(** The sample host with [rewind] registered for opcode 0x4e. *)
Definition host_rewind : Host :=
  {| Slid := Slid Sample.host;
     defaultOpcodeHandler := defaultOpcodeHandler Sample.host;
     opcodeHandlerTable := opcodeHandlerTable Sample.host;
     offsetof_nextScript := offsetof_nextScript Sample.host;
     overrides := {[ 0x4e := rewind ]};
     call := call Sample.host |}.

(** A file system holding the six-byte script "a.csi". *)
Definition disk : FileSystem :=
  {| st_size := fun path => if String.eqb path "a.csi" then Some 6 else None;
     contents := fun path =>
       if String.eqb path "a.csi" then Some [0x4e; 0; 1; 2; 3; 4] else None;
     null_stream := Undefined NullStream |}.

(** The same file cut short: [stat] still gives six bytes, two arrive. *)
Definition disk_short : FileSystem :=
  {| st_size := st_size disk;
     contents := fun path =>
       if String.eqb path "a.csi" then Some [0x4e; 0] else None;
     null_stream := Undefined NullStream |}.

(** The sample host with an interceptor registered for opcode 0x4e that
    clears the active flag of the unit. *)
Definition host_clear : Host :=
  {| Slid := Slid Sample.host;
     defaultOpcodeHandler := defaultOpcodeHandler Sample.host;
     opcodeHandlerTable := opcodeHandlerTable Sample.host;
     offsetof_nextScript := offsetof_nextScript Sample.host;
     overrides := {[ 0x4e := fun (_ : Z) (s : State) =>
                               with_unit (set_active false) s ]};
     call := call Sample.host |}.

(** Routines that behave as those of the sample host except for opcode
    0x4e, where they return 0 and reactivate the unit. *)
Definition call_4e (handler ctx opcode : Z) (s : State) : Z * State :=
  if opcode =? 0x4e then (0, with_unit (set_active true) s)
  else call Sample.host handler ctx opcode s.

(** A process that has loaded one hundred scripts before. *)
Definition process100 : Process :=
  {| pheap := pheap Sample.process; log := []; loadNumber := 100 |}.

(** A process that has loaded three scripts before. *)
Definition process3 : Process :=
  {| pheap := pheap Sample.process; log := []; loadNumber := 3 |}.

(** The table memory with the adjustment word of the record at offset 32
    replaced by 1, and with a byte outside the table changed. *)
Definition table_mem_odd : Memory :=
  store_bytes 0x4228 [1; 0; 0; 0; 0; 0; 0; 0] Sample.table_mem.

Definition table_mem_far : Memory :=
  <[ 0x5000 := 9 ]> Sample.table_mem.

End Scenario.

(** * Properties *)

(** ** Machine words *)

Lemma to_u64_small z : 0 <= z < 2 ^ 64 -> Word.to_u64 z = z.
Proof. intros H. unfold Word.to_u64. now apply Z.mod_small. Qed.

Lemma to_u8_range z : 0 <= Word.to_u8 z < 256.
Proof. unfold Word.to_u8. apply Z.mod_pos_bound. lia. Qed.


(** ** The offset hash *)

Section OffsetArithmetic.

(** Clearing the low four bits of a value below 2^30. *)
Lemma land_3ffffff0 v :
  0 <= v < 2 ^ 30 -> Z.land v 0x3ffffff0 = 16 * (v / 16).
Proof.
  intros Hv.
  change 0x3ffffff0 with (Z.shiftl (Z.ones 26) 4).
  replace (16 * (v / 16)) with (Z.shiftl (Z.shiftr v 4) 4)
    by (rewrite Z.shiftl_mul_pow2, Z.shiftr_div_pow2 by lia;
        change (2 ^ 4) with 16; lia).
  apply Z.bits_inj'. intros n Hn.
  rewrite Z.land_spec, !Z.shiftl_spec by lia.
  destruct (Z.ltb_spec n 4) as [Hlt | Hge].
  - rewrite (Z.testbit_neg_r _ (n - 4)) by lia.
    rewrite (Z.testbit_neg_r _ (n - 4)) by lia.
    apply andb_false_r.
  - rewrite Z.shiftr_spec by lia.
    replace (n - 4 + 4) with n by lia.
    destruct (Z.ltb_spec n 30) as [Hlt30 | Hge30].
    + rewrite Z.ones_spec_low by lia. apply andb_true_r.
    + rewrite Z.ones_spec_high by lia. rewrite andb_false_r.
      symmetry. apply Z.bits_above_log2; [lia |].
      destruct (Z.eq_dec v 0) as [-> | Hnz]; [simpl; lia |].
      apply Z.log2_lt_pow2; [lia |].
      apply Z.lt_le_trans with (2 ^ 30); [lia |].
      apply Z.pow_le_mono_r; lia.
Qed.

(** The multiplier is the rounded-up reciprocal of 100 scaled by 2^37. *)
Lemma reciprocal_100 x :
  0 <= x < 2 ^ 15 -> x * 1374389535 / 2 ^ 37 = x / 100.
Proof.
  intros Hx.
  pose proof (Z.div_mod x 100 ltac:(lia)) as Hdm.
  pose proof (Z.mod_pos_bound x 100 ltac:(lia)) as Hr.
  set (q := x / 100) in *. set (r := x mod 100) in *.
  symmetry. apply Z.div_unique with (r := x * 1374389535 - q * 2 ^ 37).
  - left. change (2 ^ 37) with 137438953472 in *.
    change (2 ^ 15) with 32768 in *. lia.
  - lia.
Qed.

(** Closed form of the hash on every 15-bit opcode. *)
Lemma handlerOffset_closed opcode :
  0 <= opcode < 2 ^ 15 -> handlerOffset opcode = 16 * (opcode / 100).
Proof.
  intros Ho. unfold handlerOffset.
  assert (Hmask : Z.land opcode 0x7fff = opcode).
  { change 0x7fff with (Z.ones 15). rewrite Z.land_ones by lia.
    apply Z.mod_small. lia. }
  rewrite Hmask.
  rewrite to_u64_small
    by (change (2 ^ 15) with 32768 in Ho;
        change (2 ^ 64) with 18446744073709551616; lia).
  rewrite Z.shiftr_div_pow2 by lia.
  assert (Hb : 0 <= opcode * 1374389535 / 2 ^ 33 < 2 ^ 30).
  { split; [apply Z.div_pos; lia |].
    apply Z.div_lt_upper_bound; [lia |].
    change (2 ^ 15) with 32768 in Ho.
    change (2 ^ 33 * 2 ^ 30) with 9223372036854775808. lia. }
  rewrite land_3ffffff0 by exact Hb.
  rewrite Z.div_div by lia.
  change (2 ^ 33 * 16) with (2 ^ 37).
  now rewrite reciprocal_100.
Qed.

End OffsetArithmetic.

(** The offset is a whole number of 8-byte slots. *)
Lemma handlerOffset_slot opcode :
  0 <= opcode < 2 ^ 15 ->
  8 * (handlerOffset opcode / 8) = handlerOffset opcode.
Proof.
  intros Ho. rewrite handlerOffset_closed by exact Ho.
  replace (16 * (opcode / 100)) with (2 * (opcode / 100) * 8) by lia.
  rewrite Z.div_mul by lia. lia.
Qed.

(** The index bounds that follow from the closed form. *)
Lemma handlerOffset_below_cutoff opcode :
  0 <= opcode < defaultCutoff ->
  0 <= opcode / 100 <= 26.
Proof.
  unfold defaultCutoff. intros Ho. split.
  - apply Z.div_pos; lia.
  - apply Z.lt_succ_r. apply Z.div_lt_upper_bound; lia.
Qed.






(** The bound 52 is reached, by the last tabulated opcode. *)
Example handlerOffset_last : handlerOffset 0xa8b = 416.
Proof. reflexivity. Qed.

(** ** Handler resolution *)

(** C1. For every opcode at or above 0xa8c, FindHandler returns the one
    default handler of the host and leaves the context pointer as it was;
    no offset is computed and the table is not read, whatever memory
    holds. *)
Theorem C1_FindHandler_default (h : Host) (m : Memory) (opcode thisPtr : Z) :
  0xa8c <= opcode ->
  FindHandler h m opcode thisPtr = Ok (Slid h (defaultOpcodeHandler h), thisPtr).
Proof.
  intros Ho. unfold FindHandler, defaultCutoff.
  destruct (Z.leb_spec 0xa8c opcode) as [_ | Hlt]; [reflexivity | lia].
Qed.

(** C3. For every opcode below 0xa8c, FindHandler returns the handler
    stored in the table at index offset/8 and rebinds the context pointer
    to the address of the nextScript member of the original context plus
    the 8-byte value at tableBase + offset + 8 shifted right by one with
    its sign kept. *)
Theorem C3_FindHandler_tabulated (h : Host) (m : Memory)
    (opcode thisPtr v handler : Z) :
  0 <= opcode < 0xa8c ->
  load64 m (Word.to_u64 (Slid h (opcodeHandlerTable h)
                         + handlerOffset opcode + 8)) = Ok v ->
  load64 m (Slid h (opcodeHandlerTable h)
            + 8 * (handlerOffset opcode / 8)) = Ok handler ->
  FindHandler h m opcode thisPtr =
    Ok (handler,
        Word.to_u64 (Word.to_s64 (thisPtr + offsetof_nextScript h)
                     + Word.to_s64 v / 2))
  /\ 8 * (handlerOffset opcode / 8) = handlerOffset opcode.
Proof.
  intros Ho Hv Hh. split.
  - unfold FindHandler, defaultCutoff.
    destruct (Z.leb_spec 0xa8c opcode) as [Hge | _]; [lia |].
    unfold GetAlternateThis. unfold_bind. rewrite Hv, Hh.
    unfold Word.sar. rewrite Z.shiftr_div_pow2 by lia. reflexivity.
  - apply handlerOffset_slot. change (2 ^ 15) with 32768. lia.
Qed.

Lemma C1_FindHandler_default_witness :
  FindHandler Sample.host ∅ 0xa8c Sample.this = Ok (0x4100, Sample.this).
Proof.
  exact (C1_FindHandler_default Sample.host ∅ 0xa8c Sample.this ltac:(lia)).
Defined.

Lemma C3_FindHandler_tabulated_witness :
  FindHandler Sample.host Sample.table_mem 250 Sample.this
  = Ok (0x7000, Sample.this - 1).
Proof.
  refine (proj1 (C3_FindHandler_tabulated Sample.host Sample.table_mem
                   250 Sample.this (2 ^ 64 - 2) 0x7000 _ _ _)).
  - lia.
  - vm_compute. reflexivity.
  - vm_compute. reflexivity.
Defined.

(** ** Stepping *)

(** The opcode an event was issued for. *)
Lemma dispatch_events h this opcode s r s' ev :
  dispatch h this opcode s = Ok (r, s', ev) ->
  exists ev', ev = GetHandlerCall opcode :: ev'.
Proof.
  unfold dispatch. intros H.
  destruct (Mobile.GetHandler h opcode) as [f |].
  - inversion H; subst. eauto.
  - destruct (opcode =? 0x4e).
    + inversion H; subst. eauto.
    + unfold_bind.
      destruct (FindHandler h (mem (heap s)) opcode this) as [[hd ctx] | e];
        [| discriminate].
      destruct (call h hd ctx opcode s) as [r0 s0].
      inversion H; subst. eauto.
Qed.

Lemma RunNextInstruction_active h this s mask :
  active (unit_ s) = true ->
  load16 (mem (heap s)) (currentPointer (unit_ s)) = Ok mask ->
  RunNextInstruction h this s
  = dispatch h this (Z.land mask 0x7fff) (fetched mask s).
Proof.
  intros Ha Hl. unfold RunNextInstruction. rewrite Ha. simpl.
  unfold_bind. rewrite Hl. reflexivity.
Qed.

(** C6. Stepping a unit whose active flag is false returns 1 and leaves
    the whole state as it was: the cursor, the buffer (which is not read,
    mapped or not), invertReturn; neither the override layer nor the
    resolver is called. *)
Theorem C6_inactive_step (h : Host) (this : Z) (s : State) :
  active (unit_ s) = false ->
  RunNextInstruction h this s = Ok (1, s, []).
Proof.
  intros Ha. unfold RunNextInstruction. rewrite Ha. reflexivity.
Qed.

Lemma C6_inactive_step_witness :
  RunNextInstruction Sample.host Sample.this
    (with_unit (set_active false) Sample.terminating)
  = Ok (1, with_unit (set_active false) Sample.terminating, []).
Proof.
  exact (C6_inactive_step Sample.host Sample.this
           (with_unit (set_active false) Sample.terminating) eq_refl).
Defined.

(** The test [opcodeMask & 0x8000u] looks at bit 15 and nothing else. *)
Lemma mask_bit15 mask :
  negb (Z.land mask 0x8000 =? 0) = Z.testbit mask 15.
Proof.
  change 0x8000 with (2 ^ 15).
  destruct (Z.testbit mask 15) eqn:Hb.
  - apply negb_true_iff, Z.eqb_neq. intros Hz.
    assert (Hbit : Z.testbit (Z.land mask (2 ^ 15)) 15 = true)
      by (rewrite Z.land_spec, Hb, Z.pow2_bits_true by lia; reflexivity).
    rewrite Hz in Hbit. discriminate.
  - apply negb_false_iff, Z.eqb_eq. apply Z.bits_inj'. intros n Hn.
    rewrite Z.land_spec, Z.bits_0.
    destruct (Z.eq_dec n 15) as [-> | Hne].
    + rewrite Hb. reflexivity.
    + rewrite Z.pow2_bits_false by lia. apply andb_false_r.
Qed.

(** C7. A step of an active unit reads the 16-bit mask at the cursor and
    goes on with the cursor two bytes further, invertReturn set to whether
    bit 15 of the mask is set, and the opcode mask & 0x7fff, which is the
    one every call of the step is made for.  For the mask 0x8012 the
    opcode is 0x12 and invertReturn is true. *)
Theorem C7_mask_split (h : Host) (this : Z) (s : State) (mask : Z) :
  active (unit_ s) = true ->
  load16 (mem (heap s)) (currentPointer (unit_ s)) = Ok mask ->
  RunNextInstruction h this s
  = dispatch h this (Z.land mask 0x7fff) (fetched mask s)
  /\ currentPointer (unit_ (fetched mask s)) = currentPointer (unit_ s) + 2
  /\ invertReturn (unit_ (fetched mask s)) = negb (Z.land mask 0x8000 =? 0)
  /\ invertReturn (unit_ (fetched mask s)) = Z.testbit mask 15
  /\ (forall r s' ev, RunNextInstruction h this s = Ok (r, s', ev) ->
        exists ev', ev = GetHandlerCall (Z.land mask 0x7fff) :: ev')
  /\ (mask = 0x8012 ->
        Z.land mask 0x7fff = 0x12
        /\ invertReturn (unit_ (fetched mask s)) = true).
Proof.
  intros Ha Hl.
  pose proof (RunNextInstruction_active h this s mask Ha Hl) as Hrun.
  split; [exact Hrun |]. split; [reflexivity |]. split; [reflexivity |].
  split; [| split].
  - exact (mask_bit15 mask).
  - intros r s' ev Hr. rewrite Hrun in Hr.
    eapply dispatch_events; eauto.
  - intros ->. split; reflexivity.
Qed.

Lemma C7_mask_split_witness :
  RunNextInstruction Sample.host Sample.this Sample.inverted
  = dispatch Sample.host Sample.this 0x12 (fetched 0x8012 Sample.inverted).
Proof.
  refine (proj1 (C7_mask_split Sample.host Sample.this Sample.inverted
                   0x8012 _ _)).
  - reflexivity.
  - vm_compute. reflexivity.
Defined.

(** The result of a step fits the [uint8] it is returned as. *)
Lemma RunNextInstruction_byte h this s r s' ev :
  RunNextInstruction h this s = Ok (r, s', ev) -> 0 <= r < 256.
Proof.
  unfold RunNextInstruction, dispatch. intros H.
  destruct (negb (active (unit_ s))); [inversion H; lia |].
  unfold_bind.
  destruct (load16 _ _) as [mask | e]; [| discriminate].
  destruct (Mobile.GetHandler h _) as [f |]; [inversion H; lia |].
  destruct (_ =? 0x4e); [inversion H; lia |].
  destruct (FindHandler _ _ _ _) as [[hd ctx] | e]; [| discriminate].
  destruct (call h hd ctx _ _) as [r0 s0].
  inversion H; subst. apply to_u8_range.
Qed.

(** The three ways a dispatch ends, told apart by the calls made. *)
Lemma dispatch_native h this opcode s f :
  Mobile.GetHandler h opcode = Some f ->
  dispatch h this opcode s
  = Ok (0, f this s, [GetHandlerCall opcode; NativeCall opcode this]).
Proof. intros Hf. unfold dispatch. now rewrite Hf. Qed.

Lemma dispatch_terminate h this s :
  Mobile.GetHandler h 0x4e = None ->
  dispatch h this 0x4e s
  = Ok (1, with_unit (set_active false) s, [GetHandlerCall 0x4e]).
Proof. intros Hf. unfold dispatch. now rewrite Hf. Qed.

Lemma dispatch_single_call h this opcode s r s' :
  dispatch h this opcode s = Ok (r, s', [GetHandlerCall opcode]) ->
  opcode = 0x4e /\ Mobile.GetHandler h opcode = None /\ r = 1.
Proof.
  unfold dispatch. intros H.
  destruct (Mobile.GetHandler h opcode) as [f |]; [discriminate |].
  destruct (Z.eqb_spec opcode 0x4e) as [-> | Hne].
  - inversion H. auto.
  - unfold_bind.
    destruct (FindHandler h (mem (heap s)) opcode this) as [[hd ctx] | e];
      [| discriminate].
    destruct (call h hd ctx opcode s) as [r0 s0]. discriminate.
Qed.

(** C4, as amended. For every active unit whose next masked opcode is 0x4e,
    on a host with no native interceptor registered for 0x4e, the step
    returns 1 with active cleared, whatever the state was; the override
    layer is asked and answers no, and neither the resolver nor any
    handler is called. *)
Theorem C4_terminate_without_interceptor (h : Host) (this : Z) (s : State)
    (mask : Z) :
  active (unit_ s) = true ->
  load16 (mem (heap s)) (currentPointer (unit_ s)) = Ok mask ->
  Z.land mask 0x7fff = 0x4e ->
  Mobile.GetHandler h 0x4e = None ->
  RunNextInstruction h this s
  = Ok (1, with_unit (set_active false) (fetched mask s),
        [GetHandlerCall 0x4e])
  /\ active (unit_ (with_unit (set_active false) (fetched mask s))) = false.
Proof.
  intros Ha Hl Hop Hnone. split; [| reflexivity].
  rewrite (RunNextInstruction_active h this s mask Ha Hl), Hop.
  now apply dispatch_terminate.
Qed.

Lemma C4_terminate_without_interceptor_witness :
  RunNextInstruction Sample.host Sample.this Sample.terminating
  = Ok (1, with_unit (set_active false) (fetched 0x4e Sample.terminating),
        [GetHandlerCall 0x4e]).
Proof.
  refine (proj1 (C4_terminate_without_interceptor Sample.host Sample.this
                   Sample.terminating 0x4e _ _ _ _)).
  - reflexivity.
  - vm_compute. reflexivity.
  - reflexivity.
  - reflexivity.
Defined.

(** The claim C4 without the proviso fails: with an interceptor registered
    for 0x4e, the step on the buffer [0x4e, 0x00, ...] calls the
    interceptor, returns 0 and leaves active set. *)
Lemma C4_interceptor_preempts :
  active (unit_ Sample.terminating) = true
  /\ load16 (mem (heap Sample.terminating))
            (currentPointer (unit_ Sample.terminating)) = Ok 0x4e
  /\ Z.land 0x4e 0x7fff = 0x4e
  /\ RunNextInstruction Sample.host_4e Sample.this Sample.terminating
     = Ok (0, fetched 0x4e Sample.terminating,
           [GetHandlerCall 0x4e; NativeCall 0x4e Sample.this])
  /\ active (unit_ (fetched 0x4e Sample.terminating)) = true.
Proof.
  split; [reflexivity |]. split; [vm_compute; reflexivity |].
  split; [reflexivity |]. split; [| reflexivity].
  rewrite (RunNextInstruction_active Sample.host_4e Sample.this
             Sample.terminating 0x4e eq_refl)
    by (vm_compute; reflexivity).
  change (Z.land 0x4e 0x7fff) with 0x4e.
  now rewrite (dispatch_native Sample.host_4e Sample.this 0x4e
                 (fetched 0x4e Sample.terminating)
                 (fun (_ : Z) (s : State) => s)) by reflexivity.
Qed.

(** C10, as amended. The override layer is asked before the opcode is
    compared with 0x4e: when an interceptor is registered for the masked
    opcode of an active unit, 0x4e included, the step calls it with the
    address of the unit itself, on a unit whose active flag is set, and returns 0 with
    the state the interceptor leaves; the step clears nothing itself, so
    active is still set unless the interceptor cleared it.  A step that
    ends in the terminate branch (one call, the lookup) had no interceptor
    for its opcode. *)
Theorem C10_override_before_terminate (h : Host) (this : Z) (s : State)
    (mask : Z) :
  active (unit_ s) = true ->
  load16 (mem (heap s)) (currentPointer (unit_ s)) = Ok mask ->
  (forall f, Mobile.GetHandler h (Z.land mask 0x7fff) = Some f ->
     RunNextInstruction h this s
     = Ok (0, f this (fetched mask s),
           [GetHandlerCall (Z.land mask 0x7fff);
            NativeCall (Z.land mask 0x7fff) this])
     /\ active (unit_ (fetched mask s)) = true
     /\ ((forall ctx x, active (unit_ (f ctx x)) = active (unit_ x)) ->
         active (unit_ (f this (fetched mask s))) = true))
  /\ (forall r s',
        RunNextInstruction h this s
        = Ok (r, s', [GetHandlerCall (Z.land mask 0x7fff)]) ->
        Z.land mask 0x7fff = 0x4e
        /\ Mobile.GetHandler h (Z.land mask 0x7fff) = None).
Proof.
  intros Ha Hl.
  pose proof (RunNextInstruction_active h this s mask Ha Hl) as Hrun.
  split.
  - intros f Hf. split; [| split].
    + rewrite Hrun. now apply dispatch_native.
    + exact Ha.
    + intros Hkeep. rewrite Hkeep. exact Ha.
  - intros r s' Hr. rewrite Hrun in Hr.
    apply dispatch_single_call in Hr. tauto.
Qed.

Lemma C10_override_before_terminate_witness :
  RunNextInstruction Sample.host_4e Sample.this Sample.terminating
  = Ok (0, fetched 0x4e Sample.terminating,
        [GetHandlerCall 0x4e; NativeCall 0x4e Sample.this]).
Proof.
  refine (proj1 (proj1 (C10_override_before_terminate Sample.host_4e
                          Sample.this Sample.terminating 0x4e _ _)
                   (fun (_ : Z) (s : State) => s) _)).
  - reflexivity.
  - vm_compute. reflexivity.
  - reflexivity.
Defined.

(** The claim C10 as it stands fails in one point: active need not be
    set when the step returns.  With an interceptor for 0x4e that clears
    the flag, the step returns 0 and the unit is inactive. *)
Lemma C10_interceptor_clears_active :
  active (unit_ Sample.terminating) = true
  /\ load16 (mem (heap Sample.terminating))
            (currentPointer (unit_ Sample.terminating)) = Ok 0x4e
  /\ is_Some (Mobile.GetHandler Scenario.host_clear (Z.land 0x4e 0x7fff))
  /\ RunNextInstruction Scenario.host_clear Sample.this Sample.terminating
     = Ok (0, with_unit (set_active false) (fetched 0x4e Sample.terminating),
           [GetHandlerCall 0x4e; NativeCall 0x4e Sample.this])
  /\ active (unit_ (with_unit (set_active false)
                      (fetched 0x4e Sample.terminating))) = false.
Proof.
  split; [reflexivity |]. split; [vm_compute; reflexivity |].
  split; [eexists; reflexivity |]. split; [| reflexivity].
  rewrite (RunNextInstruction_active Scenario.host_clear Sample.this
             Sample.terminating 0x4e eq_refl)
    by (vm_compute; reflexivity).
  change (Z.land 0x4e 0x7fff) with 0x4e.
  now rewrite (dispatch_native Scenario.host_clear Sample.this 0x4e
                 (fetched 0x4e Sample.terminating)
                 (fun (_ : Z) (s : State) => with_unit (set_active false) s))
    by reflexivity.
Qed.

(** The buffer [0x4e, 0x00] and four bytes of padding, stepped twice on a
    host without interceptors: the first step ends the unit, the second
    returns at once and leaves the cursor where the first put it. *)
Example terminate_then_idle :
  exists s1,
    RunNextInstruction Sample.host Sample.this Sample.terminating
    = Ok (1, s1, [GetHandlerCall 0x4e])
    /\ active (unit_ s1) = false
    /\ currentPointer (unit_ s1) = 1002
    /\ RunNextInstruction Sample.host Sample.this s1 = Ok (1, s1, []).
Proof.
  eexists. split; [vm_compute; reflexivity |].
  repeat split.
Qed.

(** A step that goes through the table: opcode 250 lies in the record at
    offset 32, whose routine is at 0x7000 and whose adjustment -2 moves
    the context one byte below the unit. *)
Example step_through_table :
  exists s1,
    RunNextInstruction Sample.host Sample.this Sample.tabulated
    = Ok (1, s1, [GetHandlerCall 250; FindHandlerCall 250;
                  HostCall 0x7000 (Sample.this - 1) 250])
    /\ currentPointer (unit_ s1) = 1002.
Proof.
  eexists. split; [vm_compute; reflexivity | reflexivity].
Qed.

(** A step on the first opcode that is not tabulated. *)
Example step_default_handler :
  exists s1,
    RunNextInstruction Sample.host Sample.this Sample.untabulated
    = Ok (1, s1, [GetHandlerCall 0xa8c; FindHandlerCall 0xa8c;
                  HostCall 0x4100 Sample.this 0xa8c]).
Proof.
  eexists. vm_compute. reflexivity.
Qed.

(** ** Release, destruction and move *)

Lemma Unload_null u hp :
  startPointer u = 0 ->
  Unload {| unit_ := u; heap := hp |}
  = Ok {| unit_ := set_startPointer 0 u; heap := hp |}.
Proof. intros H0. unfold Unload. simpl. rewrite H0. reflexivity. Qed.

Lemma Unload_live s len :
  startPointer (unit_ s) <> 0 ->
  live (heap s) !! startPointer (unit_ s) = Some len ->
  exists hp,
    delete_array (startPointer (unit_ s)) (heap s) = Ok hp
    /\ Unload s = Ok {| unit_ := set_startPointer 0 (unit_ s); heap := hp |}
    /\ released hp = released (heap s) ++ [startPointer (unit_ s)]
    /\ live hp = delete (startPointer (unit_ s)) (live (heap s)).
Proof.
  intros Hnz Hlive. unfold Unload, delete_array.
  destruct (Z.eqb_spec (startPointer (unit_ s)) 0) as [E | _]; [contradiction |].
  rewrite Hlive. eexists. split; [reflexivity |].
  split; [reflexivity |]. split; reflexivity.
Qed.

(** Releasing the same block a second time is caught by the model. *)
Lemma delete_array_twice p hp hp' :
  p <> 0 ->
  delete_array p hp = Ok hp' ->
  delete_array p hp' = Undefined (BadFree p).
Proof.
  intros Hnz. unfold delete_array.
  destruct (Z.eqb_spec p 0) as [E | _]; [contradiction |].
  destruct (live hp !! p) as [len |] eqn:Hl; [| discriminate].
  intros [= <-]. simpl. now rewrite lookup_delete_eq.
Qed.

(** C8. Unload is idempotent. On a unit whose buffer is live, the first
    call releases the block at startPointer, wherever the cursor stands,
    and sets startPointer to null; a further call, such as the one the
    destructor makes, is defined, releases nothing and changes nothing.
    The buffer is therefore released exactly once. *)
Theorem C8_Unload_idempotent (s : State) (len : Z) :
  startPointer (unit_ s) <> 0 ->
  live (heap s) !! startPointer (unit_ s) = Some len ->
  exists s1,
    Unload s = Ok s1
    /\ unit_ s1 = set_startPointer 0 (unit_ s)
    /\ released (heap s1) = released (heap s) ++ [startPointer (unit_ s)]
    /\ live (heap s1) = delete (startPointer (unit_ s)) (live (heap s))
    /\ Unload s1 = Ok s1
    /\ Script_dtor s1 = Ok (heap s1).
Proof.
  intros Hnz Hlive.
  destruct (Unload_live s len Hnz Hlive) as (hp & _ & Hu & Hrel & Hlv).
  exists {| unit_ := set_startPointer 0 (unit_ s); heap := hp |}.
  split; [exact Hu |]. split; [reflexivity |].
  split; [exact Hrel |]. split; [exact Hlv |].
  assert (Hagain : Unload {| unit_ := set_startPointer 0 (unit_ s); heap := hp |}
                   = Ok {| unit_ := set_startPointer 0 (unit_ s); heap := hp |})
    by (now rewrite Unload_null).
  split; [exact Hagain |].
  unfold Script_dtor. rewrite Hagain. reflexivity.
Qed.

Lemma C8_Unload_idempotent_witness :
  exists s1,
    Unload Sample.moved = Ok s1
    /\ unit_ s1 = set_startPointer 0 (unit_ Sample.moved)
    /\ released (heap s1) = [1000]
    /\ live (heap s1) = delete 1000 (live (heap Sample.moved))
    /\ Unload s1 = Ok s1
    /\ Script_dtor s1 = Ok (heap s1).
Proof.
  refine (C8_Unload_idempotent Sample.moved 6 _ _).
  - simpl. lia.
  - vm_compute. reflexivity.
Defined.

(** C9. The move constructor gives the new unit every member of the source
    as it was and leaves the source with every member zero, so with a null
    buffer pointer and a cleared active flag; destroying the source then
    releases nothing and leaves the store untouched, and destroying both,
    in either order, releases the buffer once. *)
Theorem C9_move_invalidates_source (script : Script) (hp : Heap) :
  fst (Script_move script) = script
  /\ snd (Script_move script) = Script_zero
  /\ startPointer (snd (Script_move script)) = 0
  /\ active (snd (Script_move script)) = false
  /\ Script_dtor {| unit_ := snd (Script_move script); heap := hp |} = Ok hp
  /\ (forall len,
        startPointer script <> 0 ->
        live hp !! startPointer script = Some len ->
        exists hp',
          released hp' = released hp ++ [startPointer script]
          /\ (hp1 ← Script_dtor {| unit_ := snd (Script_move script);
                                   heap := hp |};
              Script_dtor {| unit_ := fst (Script_move script); heap := hp1 |})
             = Ok hp'
          /\ (hp1 ← Script_dtor {| unit_ := fst (Script_move script);
                                   heap := hp |};
              Script_dtor {| unit_ := snd (Script_move script); heap := hp1 |})
             = Ok hp').
Proof.
  simpl. repeat split.
  intros len Hnz Hlive.
  destruct (Unload_live {| unit_ := script; heap := hp |} len Hnz Hlive)
    as (hp' & _ & Hu & Hrel & _).
  exists hp'. split; [exact Hrel |].
  assert (Hd : Script_dtor {| unit_ := script; heap := hp |} = Ok hp')
    by (unfold Script_dtor; rewrite Hu; reflexivity).
  rewrite Hd. split; reflexivity.
Qed.

Lemma C9_move_invalidates_source_witness :
  exists hp',
    released hp' = [1000]
    /\ (hp1 ← Script_dtor {| unit_ := snd (Script_move (unit_ Sample.moved));
                             heap := heap Sample.moved |};
        Script_dtor {| unit_ := fst (Script_move (unit_ Sample.moved));
                       heap := hp1 |})
       = Ok hp'
    /\ (hp1 ← Script_dtor {| unit_ := fst (Script_move (unit_ Sample.moved));
                             heap := heap Sample.moved |};
        Script_dtor {| unit_ := snd (Script_move (unit_ Sample.moved));
                       heap := hp1 |})
       = Ok hp'.
Proof.
  refine (proj2 (proj2 (proj2 (proj2 (proj2
            (C9_move_invalidates_source (unit_ Sample.moved)
               (heap Sample.moved)))))) 6 _ _).
  - simpl. lia.
  - vm_compute. reflexivity.
Defined.

(** Had the source kept its members, destroying both units would release
    the buffer twice. *)
Lemma copy_without_zeroing_double_frees s len :
  startPointer (unit_ s) <> 0 ->
  live (heap s) !! startPointer (unit_ s) = Some len ->
  (hp1 ← Script_dtor s; Script_dtor {| unit_ := unit_ s; heap := hp1 |})
  = Undefined (BadFree (startPointer (unit_ s))).
Proof.
  intros Hnz Hlive.
  destruct (Unload_live s len Hnz Hlive) as (hp & Hd & Hu & _).
  assert (Hd1 : Script_dtor s = Ok hp)
    by (unfold Script_dtor; rewrite Hu; reflexivity).
  rewrite Hd1. unfold_bind. unfold Script_dtor, Unload. simpl.
  rewrite (delete_array_twice _ _ _ Hnz Hd). reflexivity.
Qed.

(** ** Construction from a file that does not open *)

(** After the error has been logged the body goes on: the block is
    allocated and the null stream is handed to [fread].  Either that call
    is undefined, or the block ends up installed in the unit. *)
Lemma Script_ctor_open_failure fs path init p :
  contents fs path = None ->
  exists p',
    log p' = log p ++ [Log ("Loading " +:+ path);
                       LogError ("Failed to load script " +:+ path
                                 +:+ " (unable to open file)")]
    /\ live (pheap p') !! brk (pheap p) = Some (default 0 (st_size fs path))
    /\ match null_stream fs with
       | Undefined f => Script_ctor fs path init p = (p', Undefined f)
       | Ok _ =>
           exists u,
             Script_ctor fs path init p = (p', Ok u)
             /\ startPointer u = brk (pheap p)
             /\ currentPointer u = brk (pheap p)
       end.
Proof.
  intros Hopen. unfold Script_ctor, fread, fclose. rewrite Hopen.
  cbn [new_array add_log with_pheap pheap log loadNumber].
  destruct (null_stream fs) as [[] | f]; unfold_bind.
  - eexists. split; [| split]; [| | eexists; split; [reflexivity |]].
    + cbn [log]. rewrite <- List.app_assoc. reflexivity.
    + cbn [pheap live]. apply lookup_insert_eq.
    + split; reflexivity.
  - eexists. split; [| split]; [| | reflexivity].
    + cbn [log with_pheap add_log]. rewrite <- List.app_assoc. reflexivity.
    + cbn [pheap live with_pheap add_log new_array snd]. apply lookup_insert_eq.
Qed.

(** C5, on the code. Constructing a unit from "missing.csi", a file that
    does not open: the failure is logged, and the body then hands the null
    stream to [fread].  Where that is undefined no unit results; where the
    library lets it pass, the unit holds the freshly allocated block at
    4096 as its buffer and cursor, a live block nothing was read into. *)
Theorem C5_open_failure_runs_on :
  contents Sample.strict "missing.csi" = None
  /\ contents Sample.lenient "missing.csi" = None
  /\ log (fst (Script_ctor Sample.strict "missing.csi" Sample.blank
                 Sample.process))
     = [Log "Loading missing.csi";
        LogError "Failed to load script missing.csi (unable to open file)"]
  /\ snd (Script_ctor Sample.strict "missing.csi" Sample.blank Sample.process)
     = Undefined NullStream
  /\ snd (Script_ctor Sample.lenient "missing.csi" Sample.blank Sample.process)
     = Ok {| nextScript := 0; name := "magic0"; startPointer := 4096;
             currentPointer := 4096; activationTime := 0;
             active := true; invertReturn := false |}
  /\ live (pheap (fst (Script_ctor Sample.lenient "missing.csi" Sample.blank
                         Sample.process))) !! 4096 = Some 0.
Proof.
  repeat split; vm_compute; reflexivity.
Qed.

(** * Further properties of the code *)

(** ** The offset hash on every opcode value *)

Lemma handlerOffset_masked opcode :
  handlerOffset opcode = handlerOffset (Z.land opcode 0x7fff).
Proof.
  unfold handlerOffset.
  now rewrite <- Z.land_assoc, Z.land_diag.
Qed.

(** X1. Whatever value is passed, the offset is sixteen times the hundreds
    of the low 15 bits of the opcode: a multiple of 16 between 0 and 5232.
    For a 15-bit opcode at or above 0xa8c it is at least 432, past the 27
    records that the opcodes below 0xa8c use. *)
Theorem X1_handlerOffset_every_opcode (opcode : Z) :
  handlerOffset opcode = 16 * ((opcode mod 2 ^ 15) / 100)
  /\ handlerOffset opcode mod 16 = 0
  /\ 0 <= handlerOffset opcode <= 5232
  /\ (0xa8c <= opcode < 2 ^ 15 -> 432 <= handlerOffset opcode).
Proof.
  assert (Hm : Z.land opcode 0x7fff = opcode mod 2 ^ 15)
    by (change 0x7fff with (Z.ones 15); apply Z.land_ones; lia).
  pose proof (Z.mod_pos_bound opcode (2 ^ 15) ltac:(lia)) as Hr.
  assert (Hc : handlerOffset opcode = 16 * ((opcode mod 2 ^ 15) / 100)).
  { rewrite handlerOffset_masked, Hm. now apply handlerOffset_closed. }
  assert (Hq : 0 <= (opcode mod 2 ^ 15) / 100 <= 327).
  { split; [apply Z.div_pos; lia |].
    apply Z.lt_succ_r, Z.div_lt_upper_bound; [lia |].
    change (2 ^ 15) with 32768 in *. lia. }
  split; [exact Hc |]. rewrite Hc. split; [| split; [lia |]].
  - rewrite Z.mul_comm. apply Z.mod_mul. lia.
  - intros Ho. rewrite Z.mod_small by lia.
    assert (27 <= opcode / 100)
      by (apply Z.div_le_lower_bound; lia).
    lia.
Qed.

Lemma X1_handlerOffset_every_opcode_witness :
  432 <= handlerOffset 0xa8c.
Proof.
  refine (proj2 (proj2 (proj2 (X1_handlerOffset_every_opcode 0xa8c))) _).
  change (2 ^ 15) with 32768. lia.
Defined.

(** ** Records of the table *)

Lemma handlerOffset_tabulated opcode :
  0 <= opcode < 0xa8c ->
  handlerOffset opcode = 16 * (opcode / 100) /\ 0 <= opcode / 100 <= 26.
Proof.
  intros Ho. split.
  - apply handlerOffset_closed. change (2 ^ 15) with 32768. lia.
  - now apply handlerOffset_below_cutoff.
Qed.

(** X2. Two tabulated opcodes in the same hundred resolve alike: the same
    handler and the same context pointer, or the same fault. *)
Theorem X2_same_hundred_same_handler (h : Host) (m : Memory)
    (o1 o2 thisPtr : Z) :
  0 <= o1 < 0xa8c -> 0 <= o2 < 0xa8c ->
  o1 / 100 = o2 / 100 ->
  FindHandler h m o1 thisPtr = FindHandler h m o2 thisPtr.
Proof.
  intros H1 H2 Hq. unfold FindHandler, defaultCutoff.
  destruct (Z.leb_spec 0xa8c o1) as [? | _]; [lia |].
  destruct (Z.leb_spec 0xa8c o2) as [? | _]; [lia |].
  destruct (handlerOffset_tabulated o1 H1) as [-> _].
  destruct (handlerOffset_tabulated o2 H2) as [-> _].
  now rewrite Hq.
Qed.

Lemma X2_same_hundred_same_handler_witness :
  FindHandler Sample.host Sample.table_mem 200 Sample.this
  = FindHandler Sample.host Sample.table_mem 299 Sample.this.
Proof.
  refine (X2_same_hundred_same_handler Sample.host Sample.table_mem
            200 299 Sample.this _ _ _).
  - lia.
  - lia.
  - reflexivity.
Defined.

(** X3. The offset grows with the opcode, and opcodes of different
    hundreds use records that do not overlap: each record takes the 16
    bytes from its offset on, the handler first and the adjustment
    second. *)
Theorem X3_records_do_not_overlap (o1 o2 : Z) :
  0 <= o1 -> o1 <= o2 -> o2 < 2 ^ 15 ->
  handlerOffset o1 <= handlerOffset o2
  /\ (o1 / 100 < o2 / 100 -> handlerOffset o1 + 16 <= handlerOffset o2).
Proof.
  intros H0 Hle Hhi.
  rewrite !handlerOffset_closed by lia.
  pose proof (Z.div_le_mono o1 o2 100 ltac:(lia) Hle).
  split; lia.
Qed.

Lemma X3_records_do_not_overlap_witness :
  handlerOffset 199 + 16 <= handlerOffset 200.
Proof.
  refine (proj2 (X3_records_do_not_overlap 199 200 _ _ _) _).
  - lia.
  - lia.
  - change (2 ^ 15) with 32768. lia.
  - reflexivity.
Defined.

(** ** What the resolver reads *)

Lemma load_le_agree n (m1 m2 : Memory) a :
  (forall x, a <= x < a + Z.of_nat n -> m1 !! x = m2 !! x) ->
  load_le n m1 a = load_le n m2 a.
Proof.
  revert a. induction n as [| n IH]; intros a Hag; [reflexivity |].
  cbn [load_le]. unfold load8. rewrite (Hag a) by lia.
  rewrite (IH (a + 1)) by (intros x Hx; apply Hag; lia).
  reflexivity.
Qed.

(** X4. FindHandler looks at memory only inside the 432 bytes of the
    table: two memories that agree there give the same handler and the
    same context pointer for every opcode and every context. *)
Theorem X4_FindHandler_reads_table_only (h : Host) (m1 m2 : Memory)
    (opcode thisPtr : Z) :
  0 <= Slid h (opcodeHandlerTable h) ->
  Slid h (opcodeHandlerTable h) + 432 <= 2 ^ 64 ->
  (forall x,
     Slid h (opcodeHandlerTable h) <= x < Slid h (opcodeHandlerTable h) + 432 ->
     m1 !! x = m2 !! x) ->
  0 <= opcode ->
  FindHandler h m1 opcode thisPtr = FindHandler h m2 opcode thisPtr.
Proof.
  intros HT0 HT1 Hag Ho. unfold FindHandler, defaultCutoff.
  destruct (Z.leb_spec 0xa8c opcode) as [_ | Hlt]; [reflexivity |].
  destruct (handlerOffset_tabulated opcode (conj Ho Hlt)) as [Hc Hq].
  set (T := Slid h (opcodeHandlerTable h)) in *.
  unfold GetAlternateThis. fold T. rewrite Hc.
  rewrite to_u64_small by lia.
  replace (16 * (opcode / 100) / 8) with (2 * (opcode / 100))
    by (replace (16 * (opcode / 100)) with (2 * (opcode / 100) * 8) by lia;
        now rewrite Z.div_mul by lia).
  unfold load64.
  rewrite (load_le_agree 8 m1 m2 (T + 16 * (opcode / 100) + 8))
    by (intros x Hx; apply Hag; lia).
  rewrite (load_le_agree 8 m1 m2 (T + 8 * (2 * (opcode / 100))))
    by (intros x Hx; apply Hag; lia).
  reflexivity.
Qed.

Lemma X4_FindHandler_reads_table_only_witness :
  FindHandler Sample.host Sample.table_mem 250 Sample.this
  = FindHandler Sample.host Scenario.table_mem_far 250 Sample.this.
Proof.
  refine (X4_FindHandler_reads_table_only Sample.host Sample.table_mem
            Scenario.table_mem_far 250 Sample.this _ _ _ _).
  - simpl. lia.
  - simpl. lia.
  - intros x Hx. simpl in Hx. unfold Scenario.table_mem_far.
    symmetry. apply lookup_insert_ne. lia.
  - lia.
Defined.

(** ** The context pointer *)

Lemma to_u64_to_s64 a b :
  Word.to_u64 (Word.to_s64 a + b) = Word.to_u64 (a + b).
Proof.
  unfold Word.to_s64, Word.to_u64.
  destruct (a mod 2 ^ 64 <? 2 ^ 63).
  - now rewrite Zplus_mod_idemp_l.
  - replace (a mod 2 ^ 64 - 2 ^ 64 + b)
      with (a mod 2 ^ 64 + b + (-1) * 2 ^ 64) by lia.
    now rewrite Z_mod_plus_full, Zplus_mod_idemp_l.
Qed.

(** X5. The context GetAlternateThis returns is the address of nextScript
    plus half of the table word read as a signed number, taken modulo
    2^64; the casts to [long long] change nothing else.  The lowest bit
    of the word is dropped: the words 0 and 1 both give the address of
    nextScript itself. *)
Theorem X5_GetAlternateThis_value (h : Host) (m : Memory)
    (this handlerOffset v : Z) :
  load64 m (Word.to_u64 (Slid h (opcodeHandlerTable h) + handlerOffset + 8))
  = Ok v ->
  GetAlternateThis h m this handlerOffset
  = Ok ((this + offsetof_nextScript h + Word.to_s64 v / 2) mod 2 ^ 64)
  /\ (v = 0 \/ v = 1 ->
      GetAlternateThis h m this handlerOffset
      = Ok ((this + offsetof_nextScript h) mod 2 ^ 64)).
Proof.
  intros Hv.
  assert (Hg : GetAlternateThis h m this handlerOffset
               = Ok ((this + offsetof_nextScript h + Word.to_s64 v / 2)
                     mod 2 ^ 64)).
  { unfold GetAlternateThis. unfold_bind. rewrite Hv.
    rewrite to_u64_to_s64. unfold Word.sar.
    rewrite Z.shiftr_div_pow2 by lia. reflexivity. }
  split; [exact Hg |].
  intros [-> | ->]; rewrite Hg; f_equal; f_equal;
    change (Word.to_s64 _ / 2) with 0; lia.
Qed.

Lemma X5_GetAlternateThis_value_witness :
  GetAlternateThis Sample.host Scenario.table_mem_odd Sample.this 32
  = Ok Sample.this.
Proof.
  refine (proj2 (X5_GetAlternateThis_value Sample.host Scenario.table_mem_odd
                   Sample.this 32 1 _) _).
  - vm_compute. reflexivity.
  - right. reflexivity.
Defined.

(** ** Steps that reach a host handler *)

Lemma dispatch_host h this opcode s handler ctx :
  Mobile.GetHandler h opcode = None ->
  opcode <> 0x4e ->
  FindHandler h (mem (heap s)) opcode this = Ok (handler, ctx) ->
  dispatch h this opcode s
  = Ok (Word.to_u8 (call h handler ctx opcode s).1,
        (call h handler ctx opcode s).2,
        [GetHandlerCall opcode; FindHandlerCall opcode;
         HostCall handler ctx opcode]).
Proof.
  intros Hnone Hne Hfind. unfold dispatch. rewrite Hnone.
  destruct (Z.eqb_spec opcode 0x4e) as [E | _]; [contradiction |].
  unfold_bind. rewrite Hfind.
  now destruct (call h handler ctx opcode s) as [r s'].
Qed.

(** X6. A step of an active unit on an opcode that has no interceptor and
    is not 0x4e calls the handler FindHandler resolves, once, with the
    context FindHandler gives and the masked opcode, on the unit as it is
    after the fetch; the step returns the low byte of the handler's
    result and leaves the state as the handler left it. *)
Theorem X6_step_calls_resolved_handler (h : Host) (this : Z) (s : State)
    (mask handler ctx : Z) :
  active (unit_ s) = true ->
  load16 (mem (heap s)) (currentPointer (unit_ s)) = Ok mask ->
  Mobile.GetHandler h (Z.land mask 0x7fff) = None ->
  Z.land mask 0x7fff <> 0x4e ->
  FindHandler h (mem (heap s)) (Z.land mask 0x7fff) this = Ok (handler, ctx) ->
  RunNextInstruction h this s
  = Ok (Word.to_u8
          (call h handler ctx (Z.land mask 0x7fff) (fetched mask s)).1,
        (call h handler ctx (Z.land mask 0x7fff) (fetched mask s)).2,
        [GetHandlerCall (Z.land mask 0x7fff);
         FindHandlerCall (Z.land mask 0x7fff);
         HostCall handler ctx (Z.land mask 0x7fff)]).
Proof.
  intros Ha Hl Hnone Hne Hfind.
  rewrite (RunNextInstruction_active h this s mask Ha Hl).
  now apply dispatch_host.
Qed.

Lemma X6_step_calls_resolved_handler_witness :
  RunNextInstruction Sample.host Sample.this Sample.tabulated
  = Ok (1, fetched 250 Sample.tabulated,
        [GetHandlerCall 250; FindHandlerCall 250;
         HostCall 0x7000 (Sample.this - 1) 250]).
Proof.
  refine (X6_step_calls_resolved_handler Sample.host Sample.this
            Sample.tabulated 250 0x7000 (Sample.this - 1) _ _ _ _ _).
  - reflexivity.
  - vm_compute. reflexivity.
  - reflexivity.
  - discriminate.
  - vm_compute. reflexivity.
Defined.

(** X7. A step of an active unit on an opcode from 0xa8c on that has no
    interceptor goes to the default handler with the unit's own address
    as context, whatever memory holds besides the mask: the table is not
    read, so the step cannot fault on it. *)
Theorem X7_step_untabulated_opcode (h : Host) (this : Z) (s : State)
    (mask : Z) :
  active (unit_ s) = true ->
  load16 (mem (heap s)) (currentPointer (unit_ s)) = Ok mask ->
  Mobile.GetHandler h (Z.land mask 0x7fff) = None ->
  0xa8c <= Z.land mask 0x7fff ->
  RunNextInstruction h this s
  = Ok (Word.to_u8
          (call h (Slid h (defaultOpcodeHandler h)) this
             (Z.land mask 0x7fff) (fetched mask s)).1,
        (call h (Slid h (defaultOpcodeHandler h)) this
           (Z.land mask 0x7fff) (fetched mask s)).2,
        [GetHandlerCall (Z.land mask 0x7fff);
         FindHandlerCall (Z.land mask 0x7fff);
         HostCall (Slid h (defaultOpcodeHandler h)) this
           (Z.land mask 0x7fff)]).
Proof.
  intros Ha Hl Hnone Hge.
  rewrite (RunNextInstruction_active h this s mask Ha Hl).
  apply dispatch_host; [exact Hnone | lia |].
  unfold FindHandler, defaultCutoff.
  destruct (Z.leb_spec 0xa8c (Z.land mask 0x7fff)); [reflexivity | lia].
Qed.

Lemma X7_step_untabulated_opcode_witness :
  RunNextInstruction Sample.host Sample.this Sample.untabulated
  = Ok (1, fetched 0xa8c Sample.untabulated,
        [GetHandlerCall 0xa8c; FindHandlerCall 0xa8c;
         HostCall 0x4100 Sample.this 0xa8c]).
Proof.
  refine (X7_step_untabulated_opcode Sample.host Sample.this
            Sample.untabulated 0xa8c _ _ _ _).
  - reflexivity.
  - vm_compute. reflexivity.
  - reflexivity.
  - vm_compute. discriminate.
Defined.

(** ** Blocks *)

Lemma step_shape h this s r s' ev :
  RunNextInstruction h this s = Ok (r, s', ev) ->
  (r = 1 /\ s' = s /\ ev = [] /\ active (unit_ s) = false)
  \/ (exists op f, r = 0 /\ ev = [GetHandlerCall op; NativeCall op this]
                   /\ Mobile.GetHandler h op = Some f)
  \/ (r = 1 /\ ev = [GetHandlerCall 0x4e] /\ active (unit_ s') = false)
  \/ (exists op handler ctx,
        op <> 0x4e
        /\ ev = [GetHandlerCall op; FindHandlerCall op;
                 HostCall handler ctx op]).
Proof.
  unfold RunNextInstruction. intros H.
  destruct (active (unit_ s)) eqn:Ha; simpl in H.
  - unfold_bind.
    destruct (load16 _ _) as [mask | e]; [| discriminate].
    unfold dispatch in H.
    destruct (Mobile.GetHandler h _) as [f |] eqn:Hg.
    + inversion H; subst. right. left. eauto.
    + destruct (Z.eqb_spec (Z.land mask 0x7fff) 0x4e) as [E | Hne].
      * rewrite E in H. inversion H; subst. right. right. left.
        repeat split.
      * unfold_bind.
        destruct (FindHandler _ _ _ _) as [[hd ctx] | e]; [| discriminate].
        destruct (call h hd ctx _ _) as [r0 s0].
        inversion H; subst. right. right. right. eauto.
  - inversion H; subst. left. auto.
Qed.

(** The calls of a block that returns are not for opcode 0x4e. *)
Lemma block_calls_not_for_terminate (fuel : nat) (h : Host) (this : Z)
    (s s' : State) (evs : list Event) :
  RunNextBlock fuel h this s = Ok (Some (s', evs)) ->
  (FindHandlerCall 0x4e ∉ evs)
  /\ forall handler ctx, HostCall handler ctx 0x4e ∉ evs.
Proof.
  revert s s' evs. induction fuel as [| fuel IH]; intros s s' evs H.
  - discriminate.
  - cbn [RunNextBlock] in H. unfold_bind.
    destruct (RunNextInstruction h this s) as [[[r s1] ev] | e] eqn:Hstep;
      [| discriminate].
    assert (Hev : (FindHandlerCall 0x4e ∉ ev)
                  /\ forall handler ctx, HostCall handler ctx 0x4e ∉ ev).
    { apply step_shape in Hstep.
      destruct Hstep as [(_ & _ & -> & _) | [(op & f & _ & -> & _)
                        | [(_ & -> & _) | (op & hd & ctx & Hne & ->)]]];
        split; try intros hd' ctx'; rewrite ?elem_of_cons, ?elem_of_nil;
        intros Hin; repeat (destruct Hin as [Hin | Hin]);
        try discriminate; try contradiction;
        inversion Hin; congruence. }
    destruct (r =? 0).
    + destruct (RunNextBlock fuel h this s1) as [[[s2 ev2] |] | e] eqn:Hrest;
        [| discriminate | discriminate].
      inversion H; subst.
      destruct (IH _ _ _ Hrest) as [I1 I2]. destruct Hev as [E1 E2].
      split; [| intros hd ctx]; rewrite elem_of_app; intros [? | ?];
        first [now apply E1 | now apply I1
              | now apply (E2 hd ctx) | now apply (I2 hd ctx)].
    + inversion H; subst. exact Hev.
Qed.

(** A step does not depend on what the host routines do for 0x4e. *)
Lemma step_ignores_call_for_terminate h c this s :
  (forall handler ctx opcode s0,
     opcode <> 0x4e -> c handler ctx opcode s0 = call h handler ctx opcode s0) ->
  RunNextInstruction (with_call c h) this s = RunNextInstruction h this s.
Proof.
  intros Hc. unfold RunNextInstruction.
  destruct (negb (active (unit_ s))); [reflexivity |].
  unfold_bind.
  destruct (load16 _ _) as [mask | e]; [| reflexivity].
  unfold dispatch.
  change (Mobile.GetHandler (with_call c h)) with (Mobile.GetHandler h).
  destruct (Mobile.GetHandler h _) as [f |]; [reflexivity |].
  destruct (Z.eqb_spec (Z.land mask 0x7fff) 0x4e) as [E | Hne];
    [reflexivity |].
  change (FindHandler (with_call c h)) with (FindHandler h).
  unfold_bind.
  destruct (FindHandler h _ _ _) as [[hd ctx] | e]; [| reflexivity].
  cbn [call with_call]. now rewrite (Hc hd ctx _ _ Hne).
Qed.

(** X8. No step of a block calls a host handler for opcode 0x4e, whether
    the block returns, faults or goes on: on two hosts whose routines
    differ only in what they do for opcode 0x4e, a block gives the same
    outcome for every number of steps allowed.  In a block that returns,
    no call to the resolver or to a handler is for 0x4e. *)
Theorem X8_block_never_forwards_terminate (h : Host)
    (c : Z -> Z -> Z -> State -> Z * State) :
  (forall handler ctx opcode s0,
     opcode <> 0x4e -> c handler ctx opcode s0 = call h handler ctx opcode s0) ->
  (forall fuel this s,
     RunNextBlock fuel (with_call c h) this s = RunNextBlock fuel h this s)
  /\ (forall fuel this s s' evs,
        RunNextBlock fuel h this s = Ok (Some (s', evs)) ->
        (FindHandlerCall 0x4e ∉ evs)
        /\ forall handler ctx, HostCall handler ctx 0x4e ∉ evs).
Proof.
  intros Hc. split.
  - intros fuel this. induction fuel as [| fuel IH]; intros s; [reflexivity |].
    cbn [RunNextBlock].
    rewrite (step_ignores_call_for_terminate h c this s Hc).
    unfold_bind.
    destruct (RunNextInstruction h this s) as [[[r s1] ev] | e];
      [| reflexivity].
    destruct (r =? 0); [| reflexivity].
    now rewrite IH.
  - intros fuel this s s' evs.
    apply block_calls_not_for_terminate.
Qed.

Lemma X8_block_never_forwards_terminate_witness :
  RunNextBlock 3 (with_call Scenario.call_4e Sample.host) Sample.this
    Sample.terminating
  = RunNextBlock 3 Sample.host Sample.this Sample.terminating.
Proof.
  refine (proj1 (X8_block_never_forwards_terminate Sample.host
                   Scenario.call_4e _) 3%nat Sample.this Sample.terminating).
  intros handler ctx opcode s0 Hne. unfold Scenario.call_4e.
  destruct (Z.eqb_spec opcode 0x4e) as [E | _]; [contradiction | reflexivity].
Defined.

(** X9. Native interceptors do not end a block: when RunNextBlock returns,
    either the unit is inactive or the last call made was to a host
    handler. *)
Theorem X9_block_ends_inactive_or_in_host (fuel : nat) (h : Host) (this : Z)
    (s s' : State) (evs : list Event) :
  RunNextBlock fuel h this s = Ok (Some (s', evs)) ->
  active (unit_ s') = false
  \/ exists evs0 handler ctx op, evs = evs0 ++ [HostCall handler ctx op].
Proof.
  revert s s' evs. induction fuel as [| fuel IH]; intros s s' evs H.
  - discriminate.
  - cbn [RunNextBlock] in H. unfold_bind.
    destruct (RunNextInstruction h this s) as [[[r s1] ev] | e] eqn:Hstep;
      [| discriminate].
    destruct (Z.eqb_spec r 0) as [-> | Hr].
    + destruct (RunNextBlock fuel h this s1) as [[[s2 ev2] |] | e] eqn:Hrest;
        [| discriminate | discriminate].
      inversion H; subst.
      destruct (IH _ _ _ Hrest) as [Hi | (evs0 & hd & ctx & op & ->)].
      * now left.
      * right. exists (ev ++ evs0), hd, ctx, op.
        now rewrite List.app_assoc.
    + inversion H; subst.
      apply step_shape in Hstep.
      destruct Hstep as [(_ & -> & _ & Hi) | [(op & f & -> & _)
                        | [(_ & _ & Hi) | (op & hd & ctx & _ & ->)]]].
      * now left.
      * contradiction.
      * now left.
      * right. exists [GetHandlerCall op; FindHandlerCall op], hd, ctx, op.
        reflexivity.
Qed.

Lemma X9_block_ends_inactive_or_in_host_witness :
  active (unit_ (fetched 250 Sample.tabulated)) = false
  \/ exists evs0 handler ctx op,
       [GetHandlerCall 250; FindHandlerCall 250;
        HostCall 0x7000 (Sample.this - 1) 250]
       = evs0 ++ [HostCall handler ctx op].
Proof.
  refine (X9_block_ends_inactive_or_in_host 1 Sample.host Sample.this
            Sample.tabulated (fetched 250 Sample.tabulated) _ _).
  vm_compute. reflexivity.
Defined.

(** X10. RunNextBlock has no bound of its own.  When the interceptor of
    the opcode at the cursor hands the state back as it was before the
    step, the block never returns: every cap on the number of steps is
    reached. *)
Theorem X10_block_spins_on_rewinding_interceptor (h : Host) (this : Z)
    (s : State) (mask : Z) (f : Interceptor) :
  active (unit_ s) = true ->
  load16 (mem (heap s)) (currentPointer (unit_ s)) = Ok mask ->
  Mobile.GetHandler h (Z.land mask 0x7fff) = Some f ->
  f this (fetched mask s) = s ->
  forall fuel, RunNextBlock fuel h this s = Ok None.
Proof.
  intros Ha Hl Hf Hback fuel.
  induction fuel as [| fuel IH]; [reflexivity |].
  cbn [RunNextBlock].
  rewrite (RunNextInstruction_active h this s mask Ha Hl).
  rewrite (dispatch_native h this _ (fetched mask s) f Hf).
  unfold_bind. cbn [Z.eqb]. rewrite Hback, IH. reflexivity.
Qed.

Lemma X10_block_spins_on_rewinding_interceptor_witness :
  RunNextBlock 1000 Scenario.host_rewind Sample.this Sample.terminating
  = Ok None.
Proof.
  refine (X10_block_spins_on_rewinding_interceptor Scenario.host_rewind
            Sample.this Sample.terminating 0x4e Scenario.rewind _ _ _ _
            1000%nat).
  - reflexivity.
  - vm_compute. reflexivity.
  - reflexivity.
  - reflexivity.
Defined.

(** X11. A block on an inactive unit makes one step and returns with the
    state as it was and no call made, whatever the buffer and the cursor
    are.  A unit that has been moved from is such a unit. *)
Theorem X11_block_on_inactive_unit (fuel : nat) (h : Host) (this : Z)
    (s : State) :
  active (unit_ s) = false ->
  RunNextBlock (S fuel) h this s = Ok (Some (s, []))
  /\ forall script,
       RunNextBlock (S fuel) h this
         {| unit_ := snd (Script_move script); heap := heap s |}
       = Ok (Some ({| unit_ := Script_zero; heap := heap s |}, [])).
Proof.
  intros Ha. split.
  - cbn [RunNextBlock]. unfold RunNextInstruction. rewrite Ha. reflexivity.
  - intros script. reflexivity.
Qed.

Lemma X11_block_on_inactive_unit_witness :
  RunNextBlock 1 Sample.host Sample.this
    (with_unit (set_active false) Sample.terminating)
  = Ok (Some (with_unit (set_active false) Sample.terminating, [])).
Proof.
  exact (proj1 (X11_block_on_inactive_unit 0 Sample.host Sample.this
                  (with_unit (set_active false) Sample.terminating)
                  eq_refl)).
Defined.

(** ** Stepping and the buffer *)

(** X12. Terminating does not lose the buffer: after the step on 0x4e has
    cleared active, with the cursor two bytes on, the destructor releases
    the block at startPointer, once. *)
Theorem X12_terminate_then_destroy (h : Host) (this : Z) (s : State)
    (mask len : Z) :
  active (unit_ s) = true ->
  load16 (mem (heap s)) (currentPointer (unit_ s)) = Ok mask ->
  Z.land mask 0x7fff = 0x4e ->
  Mobile.GetHandler h 0x4e = None ->
  startPointer (unit_ s) <> 0 ->
  live (heap s) !! startPointer (unit_ s) = Some len ->
  exists s1 hp,
    RunNextInstruction h this s = Ok (1, s1, [GetHandlerCall 0x4e])
    /\ Script_dtor s1 = Ok hp
    /\ released hp = released (heap s) ++ [startPointer (unit_ s)]
    /\ live hp = delete (startPointer (unit_ s)) (live (heap s)).
Proof.
  intros Ha Hl Hop Hnone Hnz Hlive.
  exists (with_unit (set_active false) (fetched mask s)).
  destruct (Unload_live (with_unit (set_active false) (fetched mask s))
              len Hnz Hlive) as (hp & _ & Hu & Hrel & Hlv).
  exists hp. split; [| split; [| split]].
  - rewrite (RunNextInstruction_active h this s mask Ha Hl), Hop.
    now apply dispatch_terminate.
  - unfold Script_dtor. rewrite Hu. reflexivity.
  - exact Hrel.
  - exact Hlv.
Qed.

Lemma X12_terminate_then_destroy_witness :
  exists s1 hp,
    RunNextInstruction Sample.host Sample.this Sample.terminating
    = Ok (1, s1, [GetHandlerCall 0x4e])
    /\ Script_dtor s1 = Ok hp
    /\ released hp = [1000]
    /\ live hp = delete 1000 (live (heap Sample.terminating)).
Proof.
  refine (X12_terminate_then_destroy Sample.host Sample.this
            Sample.terminating 0x4e 6 _ _ _ _ _ _).
  - reflexivity.
  - vm_compute. reflexivity.
  - reflexivity.
  - reflexivity.
  - simpl. lia.
  - vm_compute. reflexivity.
Defined.

(** X13. Unload clears neither active nor the cursor.  A unit that is
    still active after Unload and whose cursor lies inside the released
    block reads released memory on its next step, which is undefined. *)
Theorem X13_step_after_unload (h : Host) (this : Z) (s : State) (len : Z) :
  active (unit_ s) = true ->
  startPointer (unit_ s) <> 0 ->
  live (heap s) !! startPointer (unit_ s) = Some len ->
  startPointer (unit_ s) <= currentPointer (unit_ s)
    < startPointer (unit_ s) + len ->
  exists s1,
    Unload s = Ok s1
    /\ active (unit_ s1) = true
    /\ currentPointer (unit_ s1) = currentPointer (unit_ s)
    /\ RunNextInstruction h this s1
       = Undefined (BadLoad (currentPointer (unit_ s))).
Proof.
  intros Ha Hnz Hlive Hin.
  unfold Unload, delete_array.
  destruct (Z.eqb_spec (startPointer (unit_ s)) 0) as [E | _]; [contradiction |].
  rewrite Hlive. eexists. split; [reflexivity |].
  split; [exact Ha |]. split; [reflexivity |].
  unfold RunNextInstruction. cbn [unit_ heap mem set_startPointer active
                                   currentPointer].
  rewrite Ha. cbn [negb]. unfold load16. cbn [load_le]. unfold load8.
  assert (Hgone :
    filter (fun kv : Z * Z =>
              ~ (startPointer (unit_ s) <= kv.1
                 < startPointer (unit_ s) + len))
           (mem (heap s)) !! currentPointer (unit_ s) = None).
  { apply map_lookup_filter_None_2. right.
    intros x _ Hnot. apply Hnot. exact Hin. }
  rewrite Hgone. reflexivity.
Qed.

Lemma X13_step_after_unload_witness :
  exists s1,
    Unload Sample.terminating = Ok s1
    /\ active (unit_ s1) = true
    /\ currentPointer (unit_ s1) = 1000
    /\ RunNextInstruction Sample.host Sample.this s1
       = Undefined (BadLoad 1000).
Proof.
  refine (X13_step_after_unload Sample.host Sample.this Sample.terminating
            6 _ _ _ _).
  - reflexivity.
  - simpl. lia.
  - vm_compute. reflexivity.
  - simpl. lia.
Defined.

(** ** Construction from a file that opens *)

Lemma store_bytes_lookup bs a (m : Memory) (i : nat) b :
  bs !! i = Some b ->
  store_bytes a bs m !! (a + Z.of_nat i) = Some b.
Proof.
  revert a i. induction bs as [| b0 bs IH]; intros a i Hb; [discriminate |].
  cbn [store_bytes]. destruct i as [| i].
  - injection Hb as ->. rewrite Z.add_0_r. apply lookup_insert_eq.
  - rewrite lookup_insert_ne by lia.
    replace (a + Z.of_nat (S i)) with (a + 1 + Z.of_nat i) by lia.
    now apply IH.
Qed.

Lemma store_bytes_outside bs a (m : Memory) x :
  x < a \/ a + Z.of_nat (length bs) <= x ->
  store_bytes a bs m !! x = m !! x.
Proof.
  revert a. induction bs as [| b0 bs IH]; intros a Hx; [reflexivity |].
  cbn [store_bytes]. cbn [length] in Hx.
  rewrite lookup_insert_ne by lia. apply IH. lia.
Qed.

Lemma Script_ctor_opened fs path init p bytes :
  contents fs path = Some bytes ->
  Script_ctor fs path init p
  = ({| pheap :=
          {| mem := store_bytes (brk (pheap p))
                      (take (Z.to_nat (default 0 (st_size fs path))) bytes)
                      (mem (pheap p));
             live := <[brk (pheap p) := default 0 (st_size fs path)]>
                       (live (pheap p));
             released := released (pheap p);
             brk := brk (pheap p) + Z.max (default 0 (st_size fs path)) 1 |};
        log := log p ++ [Log ("Loading " +:+ path)];
        loadNumber := (loadNumber p + 1) mod 2 ^ 32 |},
     Ok (set_name ("magic" +:+ to_string (loadNumber p))
           (set_startPointer (brk (pheap p))
              (set_currentPointer (brk (pheap p))
                 (set_activationTime 0 init))))).
Proof.
  intros Hopen. unfold Script_ctor, fread, fclose. rewrite Hopen.
  reflexivity.
Qed.

Lemma Script_ctor_within_fits capacity fs path init p bytes :
  contents fs path = Some bytes ->
  Z.of_nat (String.length ("magic" +:+ to_string (loadNumber p))) < capacity ->
  Script_ctor_within capacity fs path init p = Script_ctor fs path init p.
Proof.
  intros Hopen Hfit. unfold Script_ctor_within.
  rewrite (Script_ctor_opened fs path init p bytes Hopen).
  cbn [name set_name].
  destruct (Z.ltb_spec
              (Z.of_nat (String.length ("magic" +:+ to_string (loadNumber p))))
              capacity) as [_ | Hge]; [reflexivity | lia].
Qed.

Lemma Script_ctor_within_overrun capacity fs path init p bytes :
  contents fs path = Some bytes ->
  capacity <= Z.of_nat (String.length ("magic" +:+ to_string (loadNumber p))) ->
  (Script_ctor_within capacity fs path init p).2 = Undefined NameOverrun.
Proof.
  intros Hopen Hbig. unfold Script_ctor_within.
  rewrite (Script_ctor_opened fs path init p bytes Hopen).
  cbn [name set_name].
  destruct (Z.ltb_spec
              (Z.of_nat (String.length ("magic" +:+ to_string (loadNumber p))))
              capacity) as [Hlt | _]; [lia | reflexivity].
Qed.

(** X14. When the file opens and the generated name, "magic" followed by
    the load counter, is shorter than the name member, the constructor
    returns a unit with that name whose buffer and cursor are the fresh
    block and whose activationTime is 0.  It writes neither active nor
    invertReturn nor nextScript: they are as they were when the body
    started.  One line is logged, the counter of loads goes up by one
    within 32 bits, and the block is live with the size [stat] gave, 0 if
    [stat] failed.  When the name is not shorter than the member,
    [strcpy] writes past it and the construction is undefined. *)
Theorem X14_load_success (capacity : Z) (fs : FileSystem) (path : string)
    (init : Script) (p : Process) (bytes : list Z) :
  contents fs path = Some bytes ->
  (Z.of_nat (String.length ("magic" +:+ to_string (loadNumber p))) < capacity ->
   exists p' u,
     Script_ctor_within capacity fs path init p = (p', Ok u)
     /\ name u = "magic" +:+ to_string (loadNumber p)
     /\ startPointer u = brk (pheap p)
     /\ currentPointer u = brk (pheap p)
     /\ activationTime u = 0
     /\ active u = active init
     /\ invertReturn u = invertReturn init
     /\ nextScript u = nextScript init
     /\ log p' = log p ++ [Log ("Loading " +:+ path)]
     /\ loadNumber p' = (loadNumber p + 1) mod 2 ^ 32
     /\ live (pheap p')
        = <[brk (pheap p) := default 0 (st_size fs path)]> (live (pheap p))
     /\ released (pheap p') = released (pheap p))
  /\ (capacity <= Z.of_nat (String.length
                              ("magic" +:+ to_string (loadNumber p))) ->
      (Script_ctor_within capacity fs path init p).2
      = Undefined NameOverrun).
Proof.
  intros Hopen. split.
  - intros Hfit.
    rewrite (Script_ctor_within_fits capacity fs path init p bytes Hopen Hfit).
    rewrite (Script_ctor_opened fs path init p bytes Hopen).
    eexists. eexists. split; [reflexivity |]. repeat split.
  - now apply Script_ctor_within_overrun with (bytes := bytes).
Qed.

Lemma X14_load_success_witness :
  (exists p' u,
     Script_ctor_within 8 Scenario.disk "a.csi" Sample.blank Scenario.process3
     = (p', Ok u)
     /\ name u = "magic3"
     /\ startPointer u = 4096
     /\ currentPointer u = 4096
     /\ activationTime u = 0
     /\ active u = true
     /\ invertReturn u = false
     /\ nextScript u = 0
     /\ log p' = [Log "Loading a.csi"]
     /\ loadNumber p' = 4
     /\ live (pheap p') = <[4096 := 6]> ∅
     /\ released (pheap p') = [])
  /\ (Script_ctor_within 8 Scenario.disk "a.csi" Sample.blank
        Scenario.process100).2
     = Undefined NameOverrun.
Proof.
  split.
  - refine (proj1 (X14_load_success 8 Scenario.disk "a.csi" Sample.blank
                     Scenario.process3 [0x4e; 0; 1; 2; 3; 4] _) _).
    + reflexivity.
    + vm_compute. reflexivity.
  - refine (proj2 (X14_load_success 8 Scenario.disk "a.csi" Sample.blank
                     Scenario.process100 [0x4e; 0; 1; 2; 3; 4] _) _).
    + reflexivity.
    + vm_compute. discriminate.
Defined.

(** X15. The bytes of the file that fit the size [stat] gave can be read
    back from the buffer, at the same positions. *)
Theorem X15_loaded_bytes_read_back (fs : FileSystem) (path : string)
    (init : Script) (p : Process) (bytes : list Z) (i : nat) (b : Z) :
  contents fs path = Some bytes ->
  (i < Z.to_nat (default 0%Z (st_size fs path)))%nat ->
  bytes !! i = Some b ->
  load8 (mem (pheap (Script_ctor fs path init p).1))
        (brk (pheap p) + Z.of_nat i)
  = Ok b.
Proof.
  intros Hopen Hi Hb.
  rewrite (Script_ctor_opened fs path init p bytes Hopen).
  cbn [fst pheap mem]. unfold load8.
  rewrite (store_bytes_lookup _ _ _ i b); [reflexivity |].
  now rewrite lookup_take_lt.
Qed.

Lemma X15_loaded_bytes_read_back_witness :
  load8 (mem (pheap (Script_ctor Scenario.disk "a.csi" Sample.blank
                       Scenario.process3).1)) (4096 + 5)
  = Ok 4.
Proof.
  refine (X15_loaded_bytes_read_back Scenario.disk "a.csi" Sample.blank
            Scenario.process3 [0x4e; 0; 1; 2; 3; 4] 5%nat 4 _ _ _).
  - reflexivity.
  - vm_compute. lia.
  - reflexivity.
Defined.

(** X16. A short read goes unnoticed.  When the file holds fewer bytes
    than the block has, the constructor still returns a unit, and the
    bytes of the block past the end of the file are whatever memory held
    there before: on a fresh block, nothing that can be read. *)
Theorem X16_short_read_unnoticed (fs : FileSystem) (path : string)
    (init : Script) (p : Process) (bytes : list Z) (x : Z) :
  contents fs path = Some bytes ->
  brk (pheap p) + Z.of_nat (length bytes) <= x ->
  (exists u, (Script_ctor fs path init p).2 = Ok u)
  /\ mem (pheap (Script_ctor fs path init p).1) !! x = mem (pheap p) !! x
  /\ (mem (pheap p) !! x = None ->
      load8 (mem (pheap (Script_ctor fs path init p).1)) x
      = Undefined (BadLoad x)).
Proof.
  intros Hopen Hx.
  rewrite (Script_ctor_opened fs path init p bytes Hopen).
  cbn [fst snd pheap mem].
  assert (Hsame :
    store_bytes (brk (pheap p))
      (take (Z.to_nat (default 0 (st_size fs path))) bytes) (mem (pheap p))
    !! x = mem (pheap p) !! x).
  { apply store_bytes_outside. right.
    rewrite length_take. lia. }
  split; [eauto |]. split; [exact Hsame |].
  intros Hnone. unfold load8. now rewrite Hsame, Hnone.
Qed.

Lemma X16_short_read_unnoticed_witness :
  load8 (mem (pheap (Script_ctor Scenario.disk_short "a.csi" Sample.blank
                       Scenario.process3).1)) 4098
  = Undefined (BadLoad 4098).
Proof.
  refine (proj2 (proj2 (X16_short_read_unnoticed Scenario.disk_short "a.csi"
                          Sample.blank Scenario.process3 [0x4e; 0] 4098
                          _ _)) _).
  - reflexivity.
  - simpl. lia.
  - reflexivity.
Defined.

(** X17. The first step of a freshly loaded, active unit takes its mask
    from the first two bytes of the file, low byte first. *)
Theorem X17_first_step_of_loaded_unit (h : Host) (this : Z)
    (fs : FileSystem) (path : string) (init : Script) (p : Process)
    (b0 b1 : Z) (rest : list Z) :
  contents fs path = Some (b0 :: b1 :: rest) ->
  2 <= default 0 (st_size fs path) ->
  active init = true ->
  exists u,
    (Script_ctor fs path init p).2 = Ok u
    /\ RunNextInstruction h this
         {| unit_ := u; heap := pheap (Script_ctor fs path init p).1 |}
       = dispatch h this (Z.land (b0 + 256 * b1) 0x7fff)
           (fetched (b0 + 256 * b1)
              {| unit_ := u;
                 heap := pheap (Script_ctor fs path init p).1 |}).
Proof.
  intros Hopen Hsize Hact.
  rewrite (Script_ctor_opened fs path init p _ Hopen).
  cbn [fst snd pheap]. eexists. split; [reflexivity |].
  apply RunNextInstruction_active; [exact Hact |].
  cbn [unit_ heap mem currentPointer set_name set_startPointer
         set_currentPointer].
  set (a := brk (pheap p)).
  set (m := store_bytes a _ _).
  assert (H0 : m !! a = Some b0).
  { pose proof (store_bytes_lookup
                  (take (Z.to_nat (default 0 (st_size fs path)))
                     (b0 :: b1 :: rest))
                  a (mem (pheap p)) 0%nat b0) as H.
    change (Z.of_nat 0) with 0 in H. rewrite Z.add_0_r in H.
    apply H. rewrite lookup_take_lt by lia. reflexivity. }
  assert (H1 : m !! (a + 1) = Some b1).
  { apply (store_bytes_lookup
             (take (Z.to_nat (default 0 (st_size fs path)))
                (b0 :: b1 :: rest))
             a (mem (pheap p)) 1%nat b1).
    rewrite lookup_take_lt by lia. reflexivity. }
  unfold load16. cbn [load_le]. unfold load8. rewrite H0, H1.
  unfold_bind. f_equal. lia.
Qed.

Lemma X17_first_step_of_loaded_unit_witness :
  exists u,
    (Script_ctor Scenario.disk "a.csi" Sample.blank Scenario.process3).2
    = Ok u
    /\ RunNextInstruction Sample.host Sample.this
         {| unit_ := u;
            heap := pheap (Script_ctor Scenario.disk "a.csi" Sample.blank
                             Scenario.process3).1 |}
       = dispatch Sample.host Sample.this (Z.land (0x4e + 256 * 0) 0x7fff)
           (fetched (0x4e + 256 * 0)
              {| unit_ := u;
                 heap := pheap (Script_ctor Scenario.disk "a.csi"
                                  Sample.blank Scenario.process3).1 |}).
Proof.
  refine (X17_first_step_of_loaded_unit Sample.host Sample.this
            Scenario.disk "a.csi" Sample.blank Scenario.process3
            0x4e 0 [1; 2; 3; 4] _ _ _).
  - reflexivity.
  - simpl. lia.
  - reflexivity.
Defined.

(** X18. Loading, with a name that is shorter than the name member, and
    then unloading gives the block back: Unload on the loaded unit is
    defined, nulls startPointer, releases the fresh block and nothing
    else, leaves the set of live blocks as it was before the load, and no
    byte of the block can be read afterwards. *)
Theorem X18_load_then_unload (capacity : Z) (fs : FileSystem)
    (path : string) (init : Script) (p : Process) (bytes : list Z) :
  contents fs path = Some bytes ->
  Z.of_nat (String.length ("magic" +:+ to_string (loadNumber p))) < capacity ->
  brk (pheap p) <> 0 ->
  live (pheap p) !! brk (pheap p) = None ->
  exists u s1,
    (Script_ctor_within capacity fs path init p).2 = Ok u
    /\ Unload {| unit_ := u;
                 heap := pheap (Script_ctor_within capacity fs path init
                                  p).1 |}
       = Ok s1
    /\ startPointer (unit_ s1) = 0
    /\ live (heap s1) = live (pheap p)
    /\ released (heap s1) = released (pheap p) ++ [brk (pheap p)]
    /\ forall x,
         brk (pheap p) <= x
           < brk (pheap p) + default 0 (st_size fs path) ->
         mem (heap s1) !! x = None.
Proof.
  intros Hopen Hfit Hnz Hfree.
  rewrite (Script_ctor_within_fits capacity fs path init p bytes Hopen
             Hfit).
  rewrite (Script_ctor_opened fs path init p bytes Hopen).
  cbn [fst snd pheap]. eexists. eexists. split; [reflexivity |].
  unfold Unload, delete_array.
  cbn [unit_ heap live startPointer set_name set_startPointer].
  destruct (Z.eqb_spec (brk (pheap p)) 0) as [E | _]; [contradiction |].
  rewrite lookup_insert_eq. unfold_bind.
  split; [reflexivity |]. cbn [unit_ heap live released mem].
  split; [reflexivity |].
  split; [now apply delete_insert_id |].
  split; [reflexivity |].
  intros x Hx. apply map_lookup_filter_None_2. right.
  intros y _ Hnot. apply Hnot. exact Hx.
Qed.

Lemma X18_load_then_unload_witness :
  exists u s1,
    (Script_ctor_within 8 Scenario.disk "a.csi" Sample.blank Scenario.process3).2
    = Ok u
    /\ Unload {| unit_ := u;
                 heap := pheap (Script_ctor_within 8 Scenario.disk "a.csi"
                                  Sample.blank Scenario.process3).1 |}
       = Ok s1
    /\ startPointer (unit_ s1) = 0
    /\ live (heap s1) = ∅
    /\ released (heap s1) = [4096]
    /\ forall x, 4096 <= x < 4096 + 6 -> mem (heap s1) !! x = None.
Proof.
  refine (X18_load_then_unload 8 Scenario.disk "a.csi" Sample.blank
            Scenario.process3 [0x4e; 0; 1; 2; 3; 4] _ _ _ _).
  - reflexivity.
  - vm_compute. reflexivity.
  - simpl. lia.
  - reflexivity.
Defined.

(** ** Destruction of units that share a buffer *)

(** X19. The destructor guards against a null startPointer only.  Once a
    unit with a buffer has been destroyed, destroying any unit that holds
    the same startPointer, such as a bitwise copy, releases the block a
    second time, which is undefined. *)
Theorem X19_destroying_a_copy_is_undefined (s : State) (hp : Heap)
    (copy : Script) :
  startPointer (unit_ s) <> 0 ->
  Script_dtor s = Ok hp ->
  startPointer copy = startPointer (unit_ s) ->
  Script_dtor {| unit_ := copy; heap := hp |}
  = Undefined (BadFree (startPointer (unit_ s))).
Proof.
  intros Hnz Hd Hsame.
  assert (Hdel : delete_array (startPointer (unit_ s)) (heap s) = Ok hp).
  { unfold Script_dtor, Unload in Hd. unfold_bind.
    destruct (delete_array _ _) as [hp0 | e]; [| discriminate].
    now inversion Hd. }
  unfold Script_dtor, Unload. cbn [unit_ heap]. rewrite Hsame.
  now rewrite (delete_array_twice _ _ _ Hnz Hdel).
Qed.

Lemma X19_destroying_a_copy_is_undefined_witness :
  Script_dtor
    {| unit_ := unit_ Sample.moved;
       heap := {| mem := ∅; live := ∅; released := [1000]; brk := 4096 |} |}
  = Undefined (BadFree 1000).
Proof.
  refine (X19_destroying_a_copy_is_undefined Sample.moved
            {| mem := ∅; live := ∅; released := [1000]; brk := 4096 |}
            (unit_ Sample.moved) _ _ _).
  - simpl. lia.
  - vm_compute. reflexivity.
  - reflexivity.
Defined.

(** ** From load to destruction *)

Lemma load16_store_bytes a b0 b1 rest (n : nat) (m : Memory) :
  (2 <= n)%nat ->
  load16 (store_bytes a (take n (b0 :: b1 :: rest)) m) a = Ok (b0 + 256 * b1).
Proof.
  intros Hn. destruct n as [| [| n]]; [lia | lia |].
  cbn [take store_bytes]. unfold load16. cbn [load_le]. unfold load8.
  rewrite lookup_insert_eq.
  rewrite lookup_insert_ne by lia. rewrite lookup_insert_eq.
  unfold_bind. f_equal. lia.
Qed.

(** X20. The whole life of a unit whose file starts with the terminate
    opcode and whose name is shorter than the name member, on a host with
    no interceptor for that opcode: the load gives a unit, its first
    block ends after one step with the unit inactive and only the lookup
    made, and destroying the unit then releases the block of the load, so
    that the live blocks are those from before the load. *)
Theorem X20_load_run_destroy (capacity : Z) (h : Host) (this : Z)
    (fs : FileSystem) (path : string) (init : Script) (p : Process)
    (b0 b1 : Z) (rest : list Z) (fuel : nat) :
  contents fs path = Some (b0 :: b1 :: rest) ->
  Z.of_nat (String.length ("magic" +:+ to_string (loadNumber p))) < capacity ->
  2 <= default 0 (st_size fs path) ->
  active init = true ->
  Z.land (b0 + 256 * b1) 0x7fff = 0x4e ->
  Mobile.GetHandler h 0x4e = None ->
  brk (pheap p) <> 0 ->
  live (pheap p) !! brk (pheap p) = None ->
  exists u s1 hp,
    (Script_ctor_within capacity fs path init p).2 = Ok u
    /\ RunNextBlock (S fuel) h this
         {| unit_ := u;
            heap := pheap (Script_ctor_within capacity fs path init p).1 |}
       = Ok (Some (s1, [GetHandlerCall 0x4e]))
    /\ active (unit_ s1) = false
    /\ Script_dtor s1 = Ok hp
    /\ live hp = live (pheap p)
    /\ released hp = released (pheap p) ++ [brk (pheap p)].
Proof.
  intros Hopen Hfit Hsize Hact Hop Hnone Hnz Hfree.
  rewrite (Script_ctor_within_fits capacity fs path init p _ Hopen Hfit).
  rewrite (Script_ctor_opened fs path init p _ Hopen).
  cbn [fst snd pheap]. eexists. eexists. eexists.
  split; [reflexivity |].
  split.
  - cbn [RunNextBlock].
    erewrite RunNextInstruction_active;
      [| exact Hact | apply load16_store_bytes; lia].
    rewrite Hop, (dispatch_terminate h this _ Hnone).
    reflexivity.
  - split; [reflexivity |].
    unfold Script_dtor, Unload, delete_array.
    cbn [unit_ heap live startPointer set_name set_startPointer
           set_currentPointer set_active set_invertReturn with_unit fetched].
    destruct (Z.eqb_spec (brk (pheap p)) 0) as [E | _]; [contradiction |].
    rewrite lookup_insert_eq. unfold_bind. cbn [heap live released].
    split; [reflexivity |].
    split; [now apply delete_insert_id | reflexivity].
Qed.

Lemma X20_load_run_destroy_witness :
  exists u s1 hp,
    (Script_ctor_within 8 Scenario.disk "a.csi" Sample.blank Scenario.process3).2
    = Ok u
    /\ RunNextBlock 1 Sample.host Sample.this
         {| unit_ := u;
            heap := pheap (Script_ctor_within 8 Scenario.disk "a.csi" Sample.blank
                             Scenario.process3).1 |}
       = Ok (Some (s1, [GetHandlerCall 0x4e]))
    /\ active (unit_ s1) = false
    /\ Script_dtor s1 = Ok hp
    /\ live hp = ∅
    /\ released hp = [4096].
Proof.
  refine (X20_load_run_destroy 8 Sample.host Sample.this Scenario.disk
            "a.csi" Sample.blank Scenario.process3 0x4e 0 [1; 2; 3; 4]
            0%nat _ _ _ _ _ _ _ _).
  - reflexivity.
  - vm_compute. reflexivity.
  - simpl. lia.
  - reflexivity.
  - reflexivity.
  - reflexivity.
  - simpl. lia.
  - reflexivity.
Defined.
